(** * The project scaffolder (tools/init-project.js), embedded in Rocq

    The script collects a [ProjectConfig] over a line-oriented prompt,
    creates a directory skeleton, materializes a fixed set of files from
    templates, runs the package installer and the version-control
    initialisation, and prints a summary.

    The embedding follows the script function by function.  The mutable
    module-level [projectConfig], the console, the line input and the file
    system are the fields of one [World]; every function of the script is a
    computation in a small state-and-exception monad over it.  What the
    script cannot decide by itself (whether a file-system call fails, what a
    child process does, what [JSON.parse] makes of a text) is a field of the
    [host] record, and every theorem holds for every host.

    One statement of the script cannot be read as it stands: the regular
    expression literal of the second [replace] of [processCICDFiles] ends
    before it is meant to, and what follows it is not a set of flags
    ([regex_literal], [line_380]).  An engine rejects the module for it
    when the module is loaded ([run_script]).  The functions are embedded
    as functions, for an arbitrary pattern in the place of that literal,
    the variable [image_pattern]: what is proved of them holds whatever
    pattern the line is given. *)

From Stdlib Require Import String Ascii List ZArith Lia Bool.
From stdpp Require Import base option list gmap strings.

Local Open Scope string_scope.
Local Open Scope list_scope.

Set Warnings "-register-all".

(** ** Strings

    A JavaScript string is modelled by the byte string of its UTF-8
    encoding.  Every pattern the script searches for is ASCII, and an ASCII
    byte never occurs inside a multi-byte sequence, so searching and
    replacing on bytes finds exactly the occurrences the engine finds on
    code units.  Lower-casing is the ASCII one: no character outside ASCII
    maps to [n] or [y], which are the only results the script compares
    against.  Upper-casing beyond ASCII is the engine's table, a function
    of the host. *)

Module JsString.

Definition chars (s : string) : list ascii := list_ascii_of_string s.
Definition of_chars (l : list ascii) : string := string_of_list_ascii l.

Definition dquote : string := String "034"%char EmptyString.
Definition newline : string := String "010"%char EmptyString.

Definition is_upper (c : ascii) : bool :=
  let n := nat_of_ascii c in (65 <=? n)%nat && (n <=? 90)%nat.

Definition is_lower (c : ascii) : bool :=
  let n := nat_of_ascii c in (97 <=? n)%nat && (n <=? 122)%nat.

Definition lower_char (c : ascii) : ascii :=
  if is_upper c then ascii_of_nat (nat_of_ascii c + 32) else c.

Definition upper_char (c : ascii) : ascii :=
  if is_lower c then ascii_of_nat (nat_of_ascii c - 32) else c.

Fixpoint toLowerCase (s : string) : string :=
  match s with
  | EmptyString => EmptyString
  | String c s' => String (lower_char c) (toLowerCase s')
  end.

(** [s.charAt(0).toUpperCase() + s.slice(1)].  [charAt(0)] is the first
    code unit of [s].  An ASCII character is one byte and one code unit,
    mapped as above.  A character of two or three bytes is one code unit
    too; its upper case is what the engine's table [upper] gives for it
    (possibly more than one character: [SS] for the sharp s).  A character
    of four bytes is a surrogate pair: [charAt(0)] is its first half, which
    has no upper case, and [slice(1)] begins with the second half, so the
    string comes back as it was.  (The strings the script holds are
    decoded from the input and are well-formed.) *)
Definition capitalize (upper : string -> string) (s : string) : string :=
  match s with
  | EmptyString => EmptyString
  | String c s' =>
      let n := nat_of_ascii c in
      if (n <? 128)%nat then String (upper_char c) s'
      else if (n <? 224)%nat then
        upper (substring 0 2 s) +:+ substring 2 (String.length s - 2) s
      else if (n <? 240)%nat then
        upper (substring 0 3 s) +:+ substring 3 (String.length s - 3) s
      else s
  end.

(** [a || b] on strings: the empty string is the only falsy one. *)
Definition or_else (a b : string) : string :=
  match a with
  | EmptyString => b
  | _ => a
  end.

(** [parts.join(sep)]. *)
Fixpoint join (sep : string) (parts : list string) : string :=
  match parts with
  | [] => EmptyString
  | [p] => p
  | p :: rest => p +:+ sep +:+ join sep rest
  end.

(** [lines] is a template literal written line by line. *)
Definition lines (ls : list string) : string := join newline ls.

End JsString.

Import JsString.

(** ** Regular expressions and [String.prototype.replace]

    The patterns of the script that can be read are sequences of pattern
    characters and the end-of-input assertion, always with the [g] flag
    and a string as replacement.  A pattern is the list of its terms. *)

Module RegExp.

Inductive term :=
| Chr (c : ascii)   (* a pattern character, or an identity escape *)
| EndOfInput.       (* [$] without the [m] flag *)

Definition pattern := list term.

Definition literal (s : string) : pattern := map Chr (chars s).

(** The line terminators within ASCII, which end a line of the source. *)
Definition line_terminator (c : ascii) : bool :=
  (nat_of_ascii c =? 10)%nat || (nat_of_ascii c =? 13)%nat.

(** [match_here re s]: the pattern matches at the start of [s], consuming
    that many characters.  No term offers a choice, so there is nothing to
    backtrack over. *)
Fixpoint match_here (re : pattern) (s : list ascii) : option nat :=
  match re with
  | [] => Some 0%nat
  | Chr c :: re' =>
      match s with
      | x :: s' => if Ascii.eqb c x then S <$> match_here re' s' else None
      | [] => None
      end
  | EndOfInput :: re' =>
      match s with
      | [] => match_here re' []
      | _ :: _ => None
      end
  end.

(** GetSubstitution for a pattern without capture groups: [$$], [$&],
    [$`] and [$'] are expanded, every other [$] stands for itself. *)
Fixpoint expand (repl matched before after : list ascii) : list ascii :=
  match repl with
  | [] => []
  | c :: repl' =>
      if Ascii.eqb c "$"%char then
        match repl' with
        | d :: repl'' =>
            if Ascii.eqb d "$"%char then "$"%char :: expand repl'' matched before after
            else if Ascii.eqb d "&"%char then matched ++ expand repl'' matched before after
            else if Ascii.eqb d "`"%char then before ++ expand repl'' matched before after
            else if Ascii.eqb d "'"%char then after ++ expand repl'' matched before after
            else c :: expand repl' matched before after
        | [] => [c]
        end
      else c :: expand repl' matched before after
  end.

(** The global replace loop.  [before] is the input already passed, [skip]
    the number of characters still covered by the last match.  After an
    empty match the engine advances by one character. *)
Fixpoint replace_from (re : pattern) (repl before : list ascii) (skip : nat)
    (rest : list ascii) : list ascii :=
  match rest with
  | [] =>
      match skip, match_here re [] with
      | O, Some _ => expand repl [] before []
      | _, _ => []
      end
  | c :: rest' =>
      match skip with
      | S k => replace_from re repl (before ++ [c]) k rest'
      | O =>
          match match_here re rest with
          | Some O =>
              expand repl [] before rest
                ++ c :: replace_from re repl (before ++ [c]) 0 rest'
          | Some (S k) =>
              expand repl (take (S k) rest) before (drop (S k) rest)
                ++ replace_from re repl (before ++ [c]) k rest'
          | None => c :: replace_from re repl (before ++ [c]) 0 rest'
          end
      end
  end.

(** [s.replace(/re/g, repl)]. *)
Definition replace (re : pattern) (repl s : string) : string :=
  of_chars (replace_from re (chars repl) [] 0 (chars s)).

End RegExp.

(** ** JSON values

    A parsed object keeps its members in property order, which is the
    order [JSON.stringify] writes them in; an association list holds them.
    A number is kept as the text the engine prints for it: the script never
    computes with one.  A value stands for what [JSON.stringify] sees of
    it. *)

Module Json.

Inductive json :=
| JNull
| JBool (b : bool)
| JNum (text : string)
| JStr (s : string)
| JArr (items : list json)
| JObj (members : list (string * json)).

Definition members_get (k : string) (ms : list (string * json)) : option json :=
  snd <$> find (fun kv => String.eqb (fst kv) k) ms.

Fixpoint members_set (k : string) (v : json) (ms : list (string * json))
  : list (string * json) :=
  match ms with
  | [] => [(k, v)]
  | (k', v') :: ms' =>
      if String.eqb k' k then (k, v) :: ms' else (k', v') :: members_set k v ms'
  end.

Definition members_delete (k : string) (ms : list (string * json))
  : list (string * json) :=
  filter (fun kv => fst kv ≠ k) ms.

(** Messages of the [TypeError]s the engine throws (V8's wording). *)
Definition describe (v : option json) : string :=
  match v with
  | None => "undefined"
  | Some JNull => "null"
  | Some (JBool true) => "boolean 'true'"
  | Some (JBool false) => "boolean 'false'"
  | Some (JNum t) => "number '" +:+ t +:+ "'"
  | Some (JStr s) => "string '" +:+ s +:+ "'"
  | Some _ => "object"
  end.

(** [o[k]]: reading a member.  Reading from [undefined] or [null] throws;
    a primitive or an array has no own member under the names the script
    reads. *)
Definition get (k : string) (o : option json) : string + option json :=
  match o with
  | None | Some JNull =>
      inl ("Cannot read properties of " +:+ describe o +:+ " (reading '" +:+ k +:+ "')")
  | Some (JObj ms) => inr (members_get k ms)
  | Some _ => inr None
  end.

(** [o[k] = v] in strict mode (the script is an ES module).  Setting a
    member of [undefined], [null] or a primitive throws.  An array accepts
    the member, and [JSON.stringify] never shows it: the names the script
    sets are not indices. *)
Definition set (k : string) (v : json) (o : option json) : string + json :=
  match o with
  | None | Some JNull =>
      inl ("Cannot set properties of " +:+ describe o +:+ " (setting '" +:+ k +:+ "')")
  | Some (JObj ms) => inr (JObj (members_set k v ms))
  | Some (JArr items) => inr (JArr items)
  | Some _ =>
      inl ("Cannot create property '" +:+ k +:+ "' on " +:+ describe o)
  end.

(** [delete o[k]].  Deleting from [undefined] or [null] throws; on a
    primitive or an array there is nothing to delete under the names the
    script uses. *)
Definition delete (k : string) (o : option json) : string + json :=
  match o with
  | None | Some JNull =>
      inl ("Cannot convert undefined or null to object")
  | Some (JObj ms) => inr (JObj (members_delete k ms))
  | Some v => inr v
  end.

(** [get_path ks v]: the member reached from [v] through the names [ks],
    when every step is an object that has it. *)
Fixpoint get_path (ks : list string) (v : json) : option json :=
  match ks with
  | [] => Some v
  | k :: ks' =>
      match v with
      | JObj ms =>
          match members_get k ms with
          | Some v' => get_path ks' v'
          | None => None
          end
      | _ => None
      end
  end.

(** *** [JSON.stringify(value, null, 2)] *)

Definition hex_digit (n : nat) : ascii :=
  if (n <? 10)%nat then ascii_of_nat (48 + n) else ascii_of_nat (87 + n).

Definition quote_char (c : ascii) : string :=
  let n := nat_of_ascii c in
  if (n =? 34)%nat then "\" +:+ dquote
  else if (n =? 92)%nat then "\\"
  else if (n =? 8)%nat then "\b"
  else if (n =? 12)%nat then "\f"
  else if (n =? 10)%nat then "\n"
  else if (n =? 13)%nat then "\r"
  else if (n =? 9)%nat then "\t"
  else if (n <? 32)%nat then
    "\u00" +:+ String (hex_digit (n / 16)) (String (hex_digit (n mod 16)) EmptyString)
  else String c EmptyString.

Fixpoint quote_chars (s : string) : string :=
  match s with
  | EmptyString => EmptyString
  | String c s' => quote_char c +:+ quote_chars s'
  end.

Definition quote (s : string) : string := dquote +:+ quote_chars s +:+ dquote.

Fixpoint spaces (n : nat) : string :=
  match n with
  | O => EmptyString
  | S n' => String " "%char (spaces n')
  end.

Fixpoint stringify_at (indent : nat) (v : json) : string :=
  match v with
  | JNull => "null"
  | JBool true => "true"
  | JBool false => "false"
  | JNum t => t
  | JStr s => quote s
  | JArr [] => "[]"
  | JArr items =>
      "[" +:+ newline
        +:+ join ("," +:+ newline)
              (map (fun x => spaces (indent + 2) +:+ stringify_at (indent + 2) x) items)
        +:+ newline +:+ spaces indent +:+ "]"
  | JObj [] => "{}"
  | JObj ms =>
      "{" +:+ newline
        +:+ join ("," +:+ newline)
              (map (fun kv =>
                      spaces (indent + 2) +:+ quote (fst kv) +:+ ": "
                        +:+ stringify_at (indent + 2) (snd kv)) ms)
        +:+ newline +:+ spaces indent +:+ "}"
  end.

Definition stringify (v : json) : string := stringify_at 0 v.

End Json.

Import Json.

(** ** The world the script runs in *)

Record Features := {
  f_docker : bool;
  f_cicd : bool;
  f_database : bool;
  f_redis : bool;
  f_monitoring : bool;
}.

Record ProjectConfig := {
  name : string;
  description : string;
  author : string;
  email : string;
  dockerUsername : string;
  githubUsername : string;
  database : string;
  features : Features;
}.

(** The module-level [let projectConfig = {...}]. *)
Definition initialConfig : ProjectConfig := {|
  name := EmptyString;
  description := EmptyString;
  author := EmptyString;
  email := EmptyString;
  dockerUsername := EmptyString;
  githubUsername := EmptyString;
  database := "postgresql";
  features := {| f_docker := true; f_cicd := true; f_database := true;
                 f_redis := false; f_monitoring := true |};
|}.

Definition set_name (v : string) (c : ProjectConfig) : ProjectConfig :=
  {| name := v; description := description c; author := author c; email := email c;
     dockerUsername := dockerUsername c; githubUsername := githubUsername c;
     database := database c; features := features c |}.
Definition set_description (v : string) (c : ProjectConfig) : ProjectConfig :=
  {| name := name c; description := v; author := author c; email := email c;
     dockerUsername := dockerUsername c; githubUsername := githubUsername c;
     database := database c; features := features c |}.
Definition set_author (v : string) (c : ProjectConfig) : ProjectConfig :=
  {| name := name c; description := description c; author := v; email := email c;
     dockerUsername := dockerUsername c; githubUsername := githubUsername c;
     database := database c; features := features c |}.
Definition set_email (v : string) (c : ProjectConfig) : ProjectConfig :=
  {| name := name c; description := description c; author := author c; email := v;
     dockerUsername := dockerUsername c; githubUsername := githubUsername c;
     database := database c; features := features c |}.
Definition set_dockerUsername (v : string) (c : ProjectConfig) : ProjectConfig :=
  {| name := name c; description := description c; author := author c; email := email c;
     dockerUsername := v; githubUsername := githubUsername c;
     database := database c; features := features c |}.
Definition set_githubUsername (v : string) (c : ProjectConfig) : ProjectConfig :=
  {| name := name c; description := description c; author := author c; email := email c;
     dockerUsername := dockerUsername c; githubUsername := v;
     database := database c; features := features c |}.
Definition set_database (v : string) (c : ProjectConfig) : ProjectConfig :=
  {| name := name c; description := description c; author := author c; email := email c;
     dockerUsername := dockerUsername c; githubUsername := githubUsername c;
     database := v; features := features c |}.
Definition set_features (g : Features -> Features) (c : ProjectConfig) : ProjectConfig :=
  {| name := name c; description := description c; author := author c; email := email c;
     dockerUsername := dockerUsername c; githubUsername := githubUsername c;
     database := database c; features := g (features c) |}.

Definition set_docker (b : bool) (f : Features) : Features :=
  {| f_docker := b; f_cicd := f_cicd f; f_database := f_database f;
     f_redis := f_redis f; f_monitoring := f_monitoring f |}.
Definition set_cicd (b : bool) (f : Features) : Features :=
  {| f_docker := f_docker f; f_cicd := b; f_database := f_database f;
     f_redis := f_redis f; f_monitoring := f_monitoring f |}.
Definition set_db (b : bool) (f : Features) : Features :=
  {| f_docker := f_docker f; f_cicd := f_cicd f; f_database := b;
     f_redis := f_redis f; f_monitoring := f_monitoring f |}.
Definition set_redis (b : bool) (f : Features) : Features :=
  {| f_docker := f_docker f; f_cicd := f_cicd f; f_database := f_database f;
     f_redis := b; f_monitoring := f_monitoring f |}.
Definition set_monitoring (b : bool) (f : Features) : Features :=
  {| f_docker := f_docker f; f_cicd := f_cicd f; f_database := f_database f;
     f_redis := f_redis f; f_monitoring := b |}.

(** What the console shows: [console.log], [console.error], and the
    prompts [rl.question] writes. *)
Inductive output :=
| Out (text : string)
| Err (text : string)
| Prompt (text : string).

Record FileSystem := {
  files : gmap string string;
  dirs : gset string;
}.

Inductive fs_op :=
| Mkdir (path : string)
| ReadFile (path : string)
| WriteFile (path : string)
| CopyFile (src dest : string).

(** The host: everything outside the script.
    - [templateDir] is [path.join(__dirname, '..', 'templates')];
    - [JSON_parse] gives a value, or the message of the [SyntaxError];
    - [upper_case] is the engine's upper case of one character outside
      ASCII ([String.prototype.toUpperCase] on that character);
    - [fs_fault] says whether a file-system call fails in a given state
      (permissions, a file in the place of a directory, a full disk), and
      with what message;
    - [written_before_fault] says how far a failing [writeFile] got in a
      given state, for a path and a text: [None] when the file could not
      be opened, [Some n] when it was opened, and so created or emptied,
      and [n] characters of the text went in before the failure;
    - [execSync] is the child process: what it leaves of the file system
      and, when it fails, the message of the error [execSync] throws.  Its
      output goes to the terminal directly ([stdio: 'inherit']). *)
Record host := {
  templateDir : string;
  JSON_parse : string -> string + json;
  upper_case : string -> string;
  fs_fault : FileSystem -> fs_op -> option string;
  written_before_fault : FileSystem -> string -> string -> option nat;
  execSync : string -> FileSystem -> option string * FileSystem;
}.

(** [console] holds what has been written so far, the latest line first. *)
Record World := {
  projectConfig : ProjectConfig;
  stdin : list string;
  console : list output;
  fs : FileSystem;
  rl_closed : bool;
}.

(** Between [w] and [w'] the lines [said] were written, in that order. *)
Definition printed (said : list output) (w w' : World) : Prop :=
  console w' = rev said ++ console w.

Definition with_config (c : ProjectConfig) (w : World) : World :=
  {| projectConfig := c; stdin := stdin w; console := console w; fs := fs w;
     rl_closed := rl_closed w |}.
Definition with_stdin (l : list string) (w : World) : World :=
  {| projectConfig := projectConfig w; stdin := l; console := console w; fs := fs w;
     rl_closed := rl_closed w |}.
Definition with_console (l : list output) (w : World) : World :=
  {| projectConfig := projectConfig w; stdin := stdin w; console := l; fs := fs w;
     rl_closed := rl_closed w |}.
Definition with_fs (f : FileSystem) (w : World) : World :=
  {| projectConfig := projectConfig w; stdin := stdin w; console := console w; fs := f;
     rl_closed := rl_closed w |}.
Definition with_rl_closed (b : bool) (w : World) : World :=
  {| projectConfig := projectConfig w; stdin := stdin w; console := console w; fs := fs w;
     rl_closed := b |}.

(** ** The monad of the script

    An [async] function either returns, or throws, or awaits a promise that
    never settles (a prompt with no line left to read). *)

Inductive outcome (A : Type) :=
| Ok (a : A)
| Throw (message : string)
| Pending.
Arguments Ok {A} a.
Arguments Throw {A} message.
Arguments Pending {A}.

Definition M (A : Type) : Type := World -> outcome A * World.

Definition ret {A} (a : A) : M A := fun w => (Ok a, w).

Definition bind {A B} (m : M A) (k : A -> M B) : M B :=
  fun w =>
    match m w with
    | (Ok a, w') => k a w'
    | (Throw e, w') => (Throw e, w')
    | (Pending, w') => (Pending, w')
    end.

Definition throw {A} (e : string) : M A := fun w => (Throw e, w).

(** [try { body } catch (error) { handler(error.message) }]. *)
Definition try_catch {A} (body : M A) (handler : string -> M A) : M A :=
  fun w =>
    match body w with
    | (Throw e, w') => handler e w'
    | r => r
    end.

Declare Scope js_scope.
Delimit Scope js_scope with js.
Notation "x <- m ;; k" := (bind m (fun x => k))
  (at level 100, m at next level, k at level 200, right associativity) : js_scope.
Notation "m ;; k" := (bind m (fun _ => k))
  (at level 100, k at level 200, right associativity) : js_scope.
Local Open Scope js_scope.

Definition get_config : M ProjectConfig := fun w => (Ok (projectConfig w), w).

Definition update_config (g : ProjectConfig -> ProjectConfig) : M unit :=
  fun w => (Ok tt, with_config (g (projectConfig w)) w).

Definition console_log (text : string) : M unit :=
  fun w => (Ok tt, with_console (Out text :: console w) w).

Definition console_error (text : string) : M unit :=
  fun w => (Ok tt, with_console (Err text :: console w) w).

(** [question(prompt)]: [rl.question] writes the prompt and resolves with
    the next line. *)
Definition question (prompt : string) : M string :=
  fun w =>
    let w' := with_console (Prompt prompt :: console w) w in
    match stdin w with
    | answer :: rest => (Ok answer, with_stdin rest w')
    | [] => (Pending, w')
    end.

(** [path.join] of segments that need no normalising. *)
Definition path_join (segments : list string) : string := join "/" segments.

(** The directories [fs.mkdir(path, { recursive: true })] makes sure of:
    [path] and each of its parents. *)
Fixpoint path_and_parents (done todo : string) : list string :=
  match todo with
  | EmptyString => [done]
  | String c todo' =>
      if Ascii.eqb c "/"%char
      then done :: path_and_parents (done +:+ "/") todo'
      else path_and_parents (done +:+ String c EmptyString) todo'
  end.

Definition enoent (call : string) : string :=
  "ENOENT: no such file or directory, " +:+ call.

Section Primitives.

Context (h : host).

Definition mkdir (path : string) : M unit :=
  fun w =>
    match fs_fault h (fs w) (Mkdir path) with
    | Some e => (Throw e, w)
    | None =>
        (Ok tt,
         with_fs {| files := files (fs w);
                    dirs := dirs (fs w) ∪ list_to_set (path_and_parents EmptyString path) |} w)
    end.

Definition readFile (path : string) : M string :=
  fun w =>
    match fs_fault h (fs w) (ReadFile path) with
    | Some e => (Throw e, w)
    | None =>
        match files (fs w) !! path with
        | Some text => (Ok text, w)
        | None => (Throw (enoent ("open '" +:+ path +:+ "'")), w)
        end
    end.

(** What a [writeFile] that fails leaves.  The file is opened with the
    flag [w], which creates it or empties it, before anything is written:
    a failure of the opening leaves everything as it was, a later one
    leaves the file with the beginning of the text that went in. *)
Definition after_failed_write (path text : string) (f : FileSystem) : FileSystem :=
  match written_before_fault h f path text with
  | None => f
  | Some n => {| files := <[path := substring 0 n text]> (files f); dirs := dirs f |}
  end.

Definition writeFile (path text : string) : M unit :=
  fun w =>
    match fs_fault h (fs w) (WriteFile path) with
    | Some e => (Throw e, with_fs (after_failed_write path text (fs w)) w)
    | None =>
        (Ok tt, with_fs {| files := <[path := text]> (files (fs w)); dirs := dirs (fs w) |} w)
    end.

Definition copyFile (src dest : string) : M unit :=
  fun w =>
    match fs_fault h (fs w) (CopyFile src dest) with
    | Some e => (Throw e, w)
    | None =>
        match files (fs w) !! src with
        | Some text =>
            (Ok tt, with_fs {| files := <[dest := text]> (files (fs w)); dirs := dirs (fs w) |} w)
        | None =>
            (Throw (enoent ("copyfile '" +:+ src +:+ "' -> '" +:+ dest +:+ "'")), w)
        end
    end.

(** [execSync(command, { stdio: 'inherit' })]. *)
Definition exec (command : string) : M unit :=
  fun w =>
    match execSync h command (fs w) with
    | (Some e, fs') => (Throw e, with_fs fs' w)
    | (None, fs') => (Ok tt, with_fs fs' w)
    end.

(** A value or a thrown message, lifted into the monad. *)
Definition lift {A} (r : string + A) : M A :=
  match r with
  | inl e => throw e
  | inr a => ret a
  end.

End Primitives.

(** ** The texts the script writes as they are *)

Definition dockerignore : string :=
  lines
    ["node_modules";
     "npm-debug.log";
     ".env";
     ".env.local";
     ".env.development";
     ".env.production";
     "logs/";
     "coverage/";
     ".nyc_output";
     ".git";
     ".gitignore";
     "README.md";
     "Dockerfile";
     ".dockerignore";
     "docker-compose*.yml"].

Definition indexJs : string :=
  lines
    ["import 'dotenv/config';";
     "import server from './server.js';";
     EmptyString;
     "const PORT = process.env.PORT || 3000;";
     EmptyString;
     "server.listen(PORT, () => {";
     "  console.log(`🚀 Server running on port ${PORT}`);";
     "  console.log(`📊 Environment: ${process.env.NODE_ENV || 'development'}`);";
     "  console.log(`🔗 Local URL: http://localhost:${PORT}`);";
     "});";
     EmptyString].

Definition serverJs (cfg : ProjectConfig) : string :=
  lines
    ["import express from 'express';";
     "import cors from 'cors';";
     "import helmet from 'helmet';";
     "import morgan from 'morgan';";
     EmptyString;
     "const app = express();";
     EmptyString;
     "// 安全中间件";
     "app.use(helmet());";
     EmptyString;
     "// CORS配置";
     "app.use(cors({";
     "  origin: process.env.CORS_ORIGIN?.split(',') || 'http://localhost:3000',";
     "  credentials: true,";
     "}));";
     EmptyString;
     "// 日志中间件";
     "app.use(morgan('combined'));";
     EmptyString;
     "// 请求解析";
     "app.use(express.json());";
     "app.use(express.urlencoded({ extended: true }));";
     EmptyString;
     "// 健康检查端点";
     "app.get('/health', (req, res) => {";
     "  res.status(200).json({";
     "    status: 'OK',";
     "    timestamp: new Date().toISOString(),";
     "    uptime: process.uptime(),";
     "    environment: process.env.NODE_ENV || 'development',";
     "  });";
     "});";
     EmptyString;
     "// 基础路由";
     "app.get('/', (req, res) => {";
     "  res.json({";
     "    message: 'Welcome to " +:+ name cfg +:+ " API',";
     "    version: '1.0.0',";
     "    environment: process.env.NODE_ENV || 'development',";
     "  });";
     "});";
     EmptyString;
     "// 错误处理中间件";
     "app.use((err, req, res, next) => {";
     "  console.error(err.stack);";
     "  res.status(500).json({";
     "    error: 'Something went wrong!',";
     "    message: process.env.NODE_ENV === 'development' ? err.message : 'Internal Server Error',";
     "  });";
     "});";
     EmptyString;
     "// 404处理";
     "app.use('*', (req, res) => {";
     "  res.status(404).json({";
     "    error: 'Route not found',";
     "    path: req.originalUrl,";
     "  });";
     "});";
     EmptyString;
     "export default app;";
     EmptyString].

Definition gitignore : string :=
  lines
    ["# Dependencies";
     "node_modules/";
     "npm-debug.log*";
     "yarn-debug.log*";
     "yarn-error.log*";
     EmptyString;
     "# Environment variables";
     ".env";
     ".env.local";
     ".env.development";
     ".env.production";
     EmptyString;
     "# Logs";
     "logs";
     "*.log";
     EmptyString;
     "# Runtime data";
     "pids";
     "*.pid";
     "*.seed";
     "*.pid.lock";
     EmptyString;
     "# Coverage directory used by tools like istanbul";
     "coverage/";
     ".nyc_output";
     EmptyString;
     "# Dependency directories";
     "node_modules/";
     "jspm_packages/";
     EmptyString;
     "# Optional npm cache directory";
     ".npm";
     EmptyString;
     "# Optional eslint cache";
     ".eslintcache";
     EmptyString;
     "# Build outputs";
     "dist/";
     "build/";
     EmptyString;
     "# IDE files";
     ".vscode/";
     ".idea/";
     "*.swp";
     "*.swo";
     "*~";
     EmptyString;
     "# OS generated files";
     ".DS_Store";
     ".DS_Store?";
     "._*";
     ".Spotlight-V100";
     ".Trashes";
     "ehthumbs.db";
     "Thumbs.db";
     EmptyString;
     "# Docker";
     ".docker/";
     EmptyString;
     "# Database";
     "*.db";
     "*.sqlite";
     EmptyString].

Definition readme (h : host) (cfg : ProjectConfig) : string :=
  lines
    ["# " +:+ name cfg;
     EmptyString;
     description cfg;
     EmptyString;
     "## 🚀 Quick Start";
     EmptyString;
     "### Prerequisites";
     EmptyString;
     "- Node.js 18+";
     "- npm 9+";
     (if f_docker (features cfg) then "- Docker & Docker Compose (optional)" else EmptyString);
     EmptyString;
     "### Installation";
     EmptyString;
     "```bash";
     "# Clone the repository";
     "git clone https://github.com/" +:+ githubUsername cfg +:+ "/" +:+ name cfg +:+ ".git";
     "cd " +:+ name cfg;
     EmptyString;
     "# Install dependencies";
     "npm install";
     EmptyString;
     "# Copy environment variables";
     "cp .env.example .env";
     "# Update .env with your configuration";
     EmptyString;
     "# Start development server";
     "npm run dev";
     "```";
     EmptyString;
     (if f_docker (features cfg)
      then lines ["### Docker Development";
                  EmptyString;
                  "```bash";
                  "# Start with Docker";
                  "npm run dev:docker";
                  EmptyString;
                  "# Stop containers";
                  "npm run docker:down";
                  "```";
                  EmptyString]
      else EmptyString);
     EmptyString;
     "## 📚 Available Scripts";
     EmptyString;
     "- `npm run dev` - Start development server with hot reload";
     "- `npm run start` - Start production server";
     "- `npm run lint` - Run ESLint";
     "- `npm run lint:fix` - Fix ESLint issues";
     "- `npm run format` - Format code with Prettier";
     "- `npm run test` - Run tests";
     (if f_docker (features cfg)
      then lines ["- `npm run dev:docker` - Start development with Docker";
                  "- `npm run prod:docker` - Start production with Docker"]
      else EmptyString);
     EmptyString;
     "## 🏗️ Project Structure";
     EmptyString;
     "```";
     name cfg +:+ "/";
     "├── src/";
     "│   ├── config/         # Configuration files";
     "│   ├── controllers/    # Request handlers";
     "│   ├── middleware/     # Custom middleware";
     "│   ├── models/         # Data models";
     "│   ├── routes/         # Route definitions";
     "│   ├── services/       # Business logic";
     "│   ├── utils/          # Utility functions";
     "│   └── validations/    # Input validation schemas";
     "├── tests/              # Test files";
     "├── logs/               # Application logs";
     "└── scripts/            # Build and deployment scripts";
     "```";
     EmptyString;
     "## 📦 Tech Stack";
     EmptyString;
     "- **Runtime**: Node.js 18+";
     "- **Framework**: Express.js";
     "- **Validation**: Zod";
     "- **Testing**: Jest";
     "- **Code Quality**: ESLint + Prettier";
     (if f_database (features cfg)
      then "- **Database**: " +:+ capitalize (upper_case h) (database cfg)
      else EmptyString);
     (if f_docker (features cfg) then "- **Containerization**: Docker" else EmptyString);
     (if f_cicd (features cfg) then "- **CI/CD**: GitHub Actions" else EmptyString);
     EmptyString;
     "## 🤝 Contributing";
     EmptyString;
     "1. Fork the repository";
     "2. Create your feature branch (`git checkout -b feature/amazing-feature`)";
     "3. Commit your changes (`git commit -m 'Add some amazing feature'`)";
     "4. Push to the branch (`git push origin feature/amazing-feature`)";
     "5. Open a Pull Request";
     EmptyString;
     "## 📄 License";
     EmptyString;
     "This project is licensed under the MIT License - see the [LICENSE](LICENSE) file for details.";
     EmptyString;
     "## 👨‍💻 Author";
     EmptyString;
     "**" +:+ author cfg +:+ "**";
     "- Email: " +:+ email cfg;
     "- GitHub: [@" +:+ githubUsername cfg +:+ "](https://github.com/" +:+ githubUsername cfg +:+ ")";
     EmptyString].

(** ** The generated package manifest *)

Definition sum_bind {A B} (r : string + A) (k : A -> string + B) : string + B :=
  match r with
  | inl e => inl e
  | inr a => k a
  end.

(** [o[k].m = v] and [delete o[k][m]]: the member [k] of [o] is read, the
    operation is applied to what was read, and [o] holds the result in the
    same place. *)
Definition on_member (k : string) (op : option json -> string + json) (o : json)
  : string + json :=
  sum_bind (Json.get k (Some o)) (fun v =>
  sum_bind (op v) (fun v' =>
  match o with
  | JObj ms => inr (JObj (members_set k v' ms))
  | _ => inr o
  end)).

Definition github_url (cfg : ProjectConfig) : string :=
  "https://github.com/" +:+ githubUsername cfg +:+ "/" +:+ name cfg.

(** The lines of [processPackageJson] between parsing the template and
    writing the manifest. *)
Definition packageJson (cfg : ProjectConfig) (packageTemplate : json) : string + json :=
  sum_bind (Json.set "name" (JStr (name cfg)) (Some packageTemplate)) (fun p =>
  sum_bind (Json.set "description" (JStr (description cfg)) (Some p)) (fun p =>
  sum_bind (Json.set "author" (JStr (author cfg +:+ " <" +:+ email cfg +:+ ">")) (Some p)) (fun p =>
  sum_bind (on_member "repository"
              (Json.set "url" (JStr ("git+" +:+ github_url cfg +:+ ".git"))) p) (fun p =>
  sum_bind (on_member "bugs"
              (Json.set "url" (JStr (github_url cfg +:+ "/issues"))) p) (fun p =>
  sum_bind (Json.set "homepage" (JStr (github_url cfg +:+ "#readme")) (Some p)) (fun p =>
  if negb (f_database (features cfg)) then
    sum_bind (on_member "dependencies" (Json.delete "drizzle-orm") p) (fun p =>
    sum_bind (on_member "dependencies" (Json.delete "@neondatabase/serverless") p) (fun p =>
    sum_bind (on_member "devDependencies" (Json.delete "drizzle-kit") p) (fun p =>
    sum_bind (on_member "scripts" (Json.delete "db:generate") p) (fun p =>
    sum_bind (on_member "scripts" (Json.delete "db:migrate") p) (fun p =>
    on_member "scripts" (Json.delete "db:studio") p)))))
  else inr p)))))).

(** ** The patterns of the script *)

Definition backslash : ascii := "\"%char.

(** [/your-app-name/g] and [/your-docker-username/g]. *)
Definition app_name_token : string := "your-app-name".
Definition docker_username_token : string := "your-docker-username".

(** [/\\$\\{PROJECT_NAME:-app\\}/g].  Each [\\] is an escaped backslash, so
    [$] is the end-of-input assertion and the braces are pattern
    characters. *)
Definition project_name_pattern : RegExp.pattern :=
  [RegExp.Chr backslash; RegExp.EndOfInput; RegExp.Chr backslash]
    ++ RegExp.literal "{PROJECT_NAME:-app"
    ++ [RegExp.Chr backslash]
    ++ RegExp.literal "}".

(** *** The literal of line 380

    A regular expression literal is read in two steps.  The body runs from
    the opening slash to the first slash that is neither escaped by a
    backslash nor inside a class; the flags are the identifier characters
    that follow.  The literal is then rejected, as an early error of the
    module, when a flag is not one of [d g i m s u v y] or comes twice. *)

Definition identifier_part (c : ascii) : bool :=
  is_upper c || is_lower c
  || (let n := nat_of_ascii c in (48 <=? n)%nat && (n <=? 57)%nat)
  || Ascii.eqb c "$"%char || Ascii.eqb c "_"%char.

Definition keep (c : ascii) (r : string * string) : string * string :=
  (String c (fst r), snd r).

(** The body and what follows its closing slash; [None] when the line
    ends first. *)
Fixpoint regex_body (in_class : bool) (s : string) : option (string * string) :=
  match s with
  | EmptyString => None
  | String c s' =>
      if RegExp.line_terminator c then None
      else if Ascii.eqb c backslash then
        match s' with
        | EmptyString => None
        | String d s'' =>
            if RegExp.line_terminator d then None
            else (fun r => keep c (keep d r)) <$> regex_body in_class s''
        end
      else if in_class then keep c <$> regex_body (negb (Ascii.eqb c "]"%char)) s'
      else if Ascii.eqb c "/"%char then Some (EmptyString, s')
      else keep c <$> regex_body (Ascii.eqb c "["%char) s'
  end.

Fixpoint regex_flags (s : string) : string :=
  match s with
  | EmptyString => EmptyString
  | String c s' => if identifier_part c then String c (regex_flags s') else EmptyString
  end.

Fixpoint known_flags (flags : list ascii) : bool :=
  match flags with
  | [] => true
  | c :: flags' =>
      existsb (Ascii.eqb c) (chars "dgimsuvy")
      && negb (existsb (Ascii.eqb c) flags')
      && known_flags flags'
  end.

(** [u] and [v] exclude each other. *)
Definition valid_flags (flags : list ascii) : bool :=
  known_flags flags
  && negb (existsb (Ascii.eqb "u"%char) flags && existsb (Ascii.eqb "v"%char) flags).

(** [regex_literal s], for the text [s] that follows the opening slash:
    the body and the flags, or the message of the [SyntaxError].  (What
    the body says as a pattern is not looked into here.) *)
Definition regex_literal (s : string) : string + (string * string) :=
  match regex_body false s with
  | None => inl "Invalid regular expression: missing /"
  | Some (body, rest) =>
      if valid_flags (chars (regex_flags rest))
      then inr (body, regex_flags rest)
      else inl "Invalid regular expression flags"
  end.

(** Line 337, from the slash that opens its literal: a body and the flag
    [g]. *)
Definition line_337 : string :=
  "\\$\\{PROJECT_NAME:-app\\}/g, `\${PROJECT_NAME:-${projectConfig.name}}`);".

(** Line 380, from the slash that opens its literal.  The slash after the
    last [\\] is not escaped: the body ends there, and [your] stands where
    the flags are read. *)
Definition line_380 : string :=
  "\\$\\{\\{ secrets\\.DOCKER_USERNAME \\}\\}\\/your-app-name/g, ".

(** The content [processEnvFiles] writes for a template text. *)
Definition envContent (cfg : ProjectConfig) (envTemplate : string) : string :=
  let envTemplate := RegExp.replace (RegExp.literal app_name_token) (name cfg) envTemplate in
  RegExp.replace (RegExp.literal docker_username_token) (dockerUsername cfg) envTemplate.

(** The content [processDockerFiles] writes for a compose template. *)
Definition composeContent (cfg : ProjectConfig) (compose : string) : string :=
  RegExp.replace project_name_pattern ("${PROJECT_NAME:-" +:+ name cfg +:+ "}") compose.

(** The content [processCICDFiles] writes for a workflow template, with
    [image_pattern] for the pattern of the second [replace]. *)
Definition workflowContent (image_pattern : RegExp.pattern) (cfg : ProjectConfig)
    (content : string) : string :=
  let content := RegExp.replace (RegExp.literal app_name_token) (name cfg) content in
  RegExp.replace image_pattern ("${{ secrets.DOCKER_USERNAME }}/" +:+ name cfg) content.

(** The [directories] of [createProjectStructure]. *)
Definition base_directories : list string :=
  ["src"; "src/config"; "src/controllers"; "src/middleware"; "src/models";
   "src/routes"; "src/services"; "src/utils"; "src/validations";
   "tests"; "tests/unit"; "tests/integration"; "logs"; "scripts"].

Definition directories (cfg : ProjectConfig) : list string :=
  base_directories
    ++ (if f_docker (features cfg) then ["nginx"] else [])
    ++ (if f_cicd (features cfg) then [".github"; ".github/workflows"] else []).

Definition workflows : list string :=
  ["lint-and-format.yml"; "tests.yml"; "docker-build-and-push.yml"].

(** [for (const x of xs) { await body(x) }]. *)
Fixpoint for_of {A} (xs : list A) (body : A -> M unit) : M unit :=
  match xs with
  | [] => ret tt
  | x :: xs' => body x ;; for_of xs' body
  end.

(** [a.toLowerCase() !== 'n'] and [a.toLowerCase() === 'y']. *)
Definition not_n (answer : string) : bool := negb (String.eqb (toLowerCase answer) "n").
Definition is_y (answer : string) : bool := String.eqb (toLowerCase answer) "y".

(** ** The functions of the script *)

Section Script.

Context (h : host) (image_pattern : RegExp.pattern).

Definition showWelcome : M unit :=
  console_log "🚀 Node.js DevOps Project Initializer" ;;
  console_log "=====================================" ;;
  console_log "This tool will help you set up a new Node.js project with DevOps best practices." ;;
  console_log EmptyString.

Definition collectProjectInfo : M unit :=
  console_log "📝 Project Information" ;;
  console_log "----------------------" ;;
  a <- question "Project name: " ;;
  update_config (set_name a) ;;
  a <- question "Project description (optional): " ;;
  cfg <- get_config ;;
  update_config
    (set_description (or_else a (name cfg +:+ " - A Node.js API with DevOps practices"))) ;;
  a <- question "Author name: " ;;
  update_config (set_author a) ;;
  a <- question "Author email: " ;;
  update_config (set_email a) ;;
  a <- question "GitHub username: " ;;
  update_config (set_githubUsername a) ;;
  a <- question "Docker Hub username (optional): " ;;
  cfg <- get_config ;;
  update_config (set_dockerUsername (or_else a (githubUsername cfg))) ;;
  console_log EmptyString ;;
  console_log "🔧 Features Selection" ;;
  console_log "---------------------" ;;
  dockerChoice <- question "Include Docker configuration? (y/n) [y]: " ;;
  update_config (set_features (set_docker (not_n dockerChoice))) ;;
  cicdChoice <- question "Include CI/CD workflows? (y/n) [y]: " ;;
  update_config (set_features (set_cicd (not_n cicdChoice))) ;;
  databaseChoice <- question "Include database configuration? (y/n) [y]: " ;;
  update_config (set_features (set_db (not_n databaseChoice))) ;;
  cfg <- get_config ;;
  (if f_database (features cfg) then
     dbType <- question "Database type (postgresql/mysql/mongodb) [postgresql]: " ;;
     update_config (set_database (or_else dbType "postgresql"))
   else ret tt) ;;
  redisChoice <- question "Include Redis configuration? (y/n) [n]: " ;;
  update_config (set_features (set_redis (is_y redisChoice))) ;;
  monitoringChoice <- question "Include monitoring setup? (y/n) [y]: " ;;
  update_config (set_features (set_monitoring (not_n monitoringChoice))).

Definition createProjectStructure : M unit :=
  console_log EmptyString ;;
  console_log "📁 Creating project structure..." ;;
  cfg <- get_config ;;
  for_of (directories cfg) (fun dir =>
    mkdir h dir ;;
    console_log ("  ✅ Created: " +:+ dir +:+ "/")).

Definition processPackageJson : M unit :=
  let templatePath := path_join [templateDir h; "config"; "package.json"] in
  text <- readFile h templatePath ;;
  packageTemplate <- lift (JSON_parse h text) ;;
  cfg <- get_config ;;
  packageTemplate <- lift (packageJson cfg packageTemplate) ;;
  writeFile h "package.json" (stringify packageTemplate) ;;
  console_log "  ✅ Created: package.json".

Definition processEnvFiles : M unit :=
  let templatePath := path_join [templateDir h; "config"; ".env.example"] in
  envTemplate <- readFile h templatePath ;;
  cfg <- get_config ;;
  let envTemplate := envContent cfg envTemplate in
  writeFile h ".env.example" envTemplate ;;
  writeFile h ".env" envTemplate ;;
  console_log "  ✅ Created: .env.example" ;;
  console_log "  ✅ Created: .env".

Definition processDockerFiles : M unit :=
  let dockerfilePath := path_join [templateDir h; "docker"; "Dockerfile"] in
  copyFile h dockerfilePath "Dockerfile" ;;
  console_log "  ✅ Created: Dockerfile" ;;
  let devComposePath := path_join [templateDir h; "docker"; "docker-compose.dev.yml"] in
  devCompose <- readFile h devComposePath ;;
  cfg <- get_config ;;
  writeFile h "docker-compose.dev.yml" (composeContent cfg devCompose) ;;
  console_log "  ✅ Created: docker-compose.dev.yml" ;;
  let prodComposePath := path_join [templateDir h; "docker"; "docker-compose.prod.yml"] in
  prodCompose <- readFile h prodComposePath ;;
  cfg <- get_config ;;
  writeFile h "docker-compose.prod.yml" (composeContent cfg prodCompose) ;;
  console_log "  ✅ Created: docker-compose.prod.yml" ;;
  writeFile h ".dockerignore" dockerignore ;;
  console_log "  ✅ Created: .dockerignore".

Definition processCICDFiles : M unit :=
  for_of workflows (fun workflow =>
    let srcPath := path_join [templateDir h; "ci-cd"; workflow] in
    let destPath := path_join [".github"; "workflows"; workflow] in
    content <- readFile h srcPath ;;
    cfg <- get_config ;;
    writeFile h destPath (workflowContent image_pattern cfg content) ;;
    console_log ("  ✅ Created: .github/workflows/" +:+ workflow)).

Definition createBaseCodeFiles : M unit :=
  writeFile h "src/index.js" indexJs ;;
  console_log "  ✅ Created: src/index.js" ;;
  cfg <- get_config ;;
  writeFile h "src/server.js" (serverJs cfg) ;;
  console_log "  ✅ Created: src/server.js".

Definition createConfigFiles : M unit :=
  writeFile h ".gitignore" gitignore ;;
  console_log "  ✅ Created: .gitignore" ;;
  cfg <- get_config ;;
  writeFile h "README.md" (readme h cfg) ;;
  console_log "  ✅ Created: README.md".

Definition processTemplateFiles : M unit :=
  console_log EmptyString ;;
  console_log "📄 Processing template files..." ;;
  processPackageJson ;;
  processEnvFiles ;;
  cfg <- get_config ;;
  (if f_docker (features cfg) then processDockerFiles else ret tt) ;;
  cfg <- get_config ;;
  (if f_cicd (features cfg) then processCICDFiles else ret tt) ;;
  createBaseCodeFiles ;;
  createConfigFiles.

Definition installDependencies : M unit :=
  console_log EmptyString ;;
  console_log "📦 Installing dependencies..." ;;
  try_catch
    (exec h "npm install" ;;
     console_log "  ✅ Dependencies installed successfully")
    (fun message =>
       console_error ("  ❌ Failed to install dependencies: " +:+ message) ;;
       console_log "  ℹ️  You can install them manually later with: npm install").

Definition git_commit_command : string :=
  "git commit -m " +:+ dquote
    +:+ "Initial commit: Project setup with DevOps template" +:+ dquote.

Definition initializeGit : M unit :=
  console_log EmptyString ;;
  console_log "🔄 Initializing Git repository..." ;;
  try_catch
    (exec h "git init" ;;
     exec h "git add ." ;;
     exec h git_commit_command ;;
     console_log "  ✅ Git repository initialized")
    (fun message =>
       console_error ("  ❌ Failed to initialize Git: " +:+ message) ;;
       console_log "  ℹ️  You can initialize it manually later with: git init").

Definition showCompletion : M unit :=
  console_log EmptyString ;;
  console_log "🎉 Project initialization completed!" ;;
  console_log "===================================" ;;
  console_log EmptyString ;;
  console_log "Next steps:" ;;
  console_log "1. Update .env file with your configuration" ;;
  console_log "2. Review and customize the generated files" ;;
  cfg <- get_config ;;
  (if f_cicd (features cfg) then
     console_log "3. Set up GitHub repository secrets:" ;;
     console_log "   - DOCKER_USERNAME" ;;
     console_log "   - DOCKER_PASSWORD" ;;
     (if f_database (features cfg) then
        console_log "   - DATABASE_URL" ;;
        console_log "   - TEST_DATABASE_URL"
      else ret tt) ;;
     console_log "   - JWT_SECRET"
   else ret tt) ;;
  console_log EmptyString ;;
  console_log "Start development:" ;;
  cfg <- get_config ;;
  (if f_docker (features cfg) then
     console_log "  npm run dev:docker  # With Docker"
   else ret tt) ;;
  console_log "  npm run dev         # Local development" ;;
  console_log EmptyString ;;
  console_log "Happy coding! 🚀".

(** The body of the [try] of [main]. *)
Definition initialization : M unit :=
  showWelcome ;;
  collectProjectInfo ;;
  createProjectStructure ;;
  processTemplateFiles ;;
  installDependencies ;;
  initializeGit ;;
  showCompletion.

(** What a call of [main] comes to.  When the body of the [try] comes
    through, the [finally] closes the line reader and [main] returns.
    When it throws, the handler prints the message and [process.exit(1)]
    ends the process at once, before the [finally].  When it awaits a line
    that has not come, so does [main]. *)
Inductive ending :=
| Returned
| Exited (status : Z)
| Waiting.

Definition main (w : World) : ending * World :=
  match initialization w with
  | (Ok _, w') => (Returned, with_rl_closed true w')
  | (Throw message, w') =>
      (Exited 1,
       with_console (Err ("❌ Error during initialization: " +:+ message) :: console w') w')
  | (Pending, w') => (Waiting, w')
  end.

End Script.

(** [node tools/init-project.js].  The engine reads the whole module
    before it evaluates any of it: with an early error in the text the
    process ends with status 1 and no statement of the script has run (the
    report of the error is the engine's and goes to the terminal directly).
    [body] is the evaluation of the module, which comes down to the call of
    [main]. *)
Definition run_script (body : World -> ending * World) (w : World) : ending * World :=
  match regex_literal line_380 with
  | inl _ => (Exited 1, w)
  | inr _ => body w
  end.

(** * The vocabulary of the properties *)

Definition database_prompt : output :=
  Prompt "Database type (postgresql/mysql/mongodb) [postgresql]: ".

(** The lines the collector reads, in the order it reads them.  The line
    for the database type is only there when the database answer asks for
    it. *)
Record Answers := {
  a_name : string;
  a_description : string;
  a_author : string;
  a_email : string;
  a_github : string;
  a_dockerhub : string;
  a_docker : string;
  a_cicd : string;
  a_database : string;
  a_dbType : string;
  a_redis : string;
  a_monitoring : string;
}.

Definition typed (a : Answers) : list string :=
  [a_name a; a_description a; a_author a; a_email a; a_github a; a_dockerhub a;
   a_docker a; a_cicd a; a_database a]
    ++ (if not_n (a_database a) then [a_dbType a] else [])
    ++ [a_redis a; a_monitoring a].

(** The configuration the collector leaves, written out. *)
Definition collected (a : Answers) (c0 : ProjectConfig) : ProjectConfig := {|
  name := a_name a;
  description :=
    or_else (a_description a) (a_name a +:+ " - A Node.js API with DevOps practices");
  author := a_author a;
  email := a_email a;
  dockerUsername := or_else (a_dockerhub a) (a_github a);
  githubUsername := a_github a;
  database :=
    if not_n (a_database a) then or_else (a_dbType a) "postgresql" else database c0;
  features := {|
    f_docker := not_n (a_docker a);
    f_cicd := not_n (a_cicd a);
    f_database := not_n (a_database a);
    f_redis := is_y (a_redis a);
    f_monitoring := not_n (a_monitoring a);
  |};
|}.

Definition collector_prompts (a : Answers) : list output :=
  [Out "📝 Project Information";
   Out "----------------------";
   Prompt "Project name: ";
   Prompt "Project description (optional): ";
   Prompt "Author name: ";
   Prompt "Author email: ";
   Prompt "GitHub username: ";
   Prompt "Docker Hub username (optional): ";
   Out EmptyString;
   Out "🔧 Features Selection";
   Out "---------------------";
   Prompt "Include Docker configuration? (y/n) [y]: ";
   Prompt "Include CI/CD workflows? (y/n) [y]: ";
   Prompt "Include database configuration? (y/n) [y]: "]
    ++ (if not_n (a_database a) then [database_prompt] else [])
    ++ [Prompt "Include Redis configuration? (y/n) [n]: ";
        Prompt "Include monitoring setup? (y/n) [y]: "].

Definition created_line (dir : string) : output := Out ("  ✅ Created: " +:+ dir +:+ "/").

(** The names of the members of an object, in order. *)
Definition member_names (v : json) : list string :=
  match v with
  | JObj ms => map fst ms
  | _ => []
  end.

(** The manifest with the names [ks] taken out of an object. *)
Definition without (ks : list string) (v : json) : json :=
  match v with
  | JObj ms => JObj (filter (fun kv => fst kv ∉ ks) ms)
  | _ => v
  end.

(** The members [processPackageJson] takes out when there is no database:
    the member of the manifest, and the name inside it. *)
Definition database_keys : list (string * string) :=
  [("dependencies", "drizzle-orm");
   ("dependencies", "@neondatabase/serverless");
   ("devDependencies", "drizzle-kit");
   ("scripts", "db:generate");
   ("scripts", "db:migrate");
   ("scripts", "db:studio")].

Definition removed_from (k : string) : list string :=
  map snd (filter (fun km => fst km = k) database_keys).

Definition enable_database (cfg : ProjectConfig) : ProjectConfig :=
  set_features (set_db true) cfg.

(** The six [delete]s of [processPackageJson]. *)
Definition strip_database (p : json) : string + json :=
  sum_bind (on_member "dependencies" (Json.delete "drizzle-orm") p) (fun p =>
  sum_bind (on_member "dependencies" (Json.delete "@neondatabase/serverless") p) (fun p =>
  sum_bind (on_member "devDependencies" (Json.delete "drizzle-kit") p) (fun p =>
  sum_bind (on_member "scripts" (Json.delete "db:generate") p) (fun p =>
  sum_bind (on_member "scripts" (Json.delete "db:migrate") p) (fun p =>
  on_member "scripts" (Json.delete "db:studio") p))))).

Definition is_object (v : json) : bool :=
  match v with
  | JObj _ => true
  | _ => false
  end.

Definition repository_url (cfg : ProjectConfig) : string :=
  "git+https://github.com/" +:+ githubUsername cfg +:+ "/" +:+ name cfg +:+ ".git".

Definition homepage_url (cfg : ProjectConfig) : string :=
  "https://github.com/" +:+ githubUsername cfg +:+ "/" +:+ name cfg +:+ "#readme".

(** The scenario of the specification. *)
Definition demo : ProjectConfig := {|
  name := "demo";
  description := "demo - A Node.js API with DevOps practices";
  author := "Alice";
  email := "alice@example.com";
  dockerUsername := "alice";
  githubUsername := "alice";
  database := "postgresql";
  features := {| f_docker := true; f_cicd := true; f_database := true;
                 f_redis := false; f_monitoring := true |};
|}.

Definition demo_without_database : ProjectConfig := set_features (set_db false) demo.

Definition sample_manifest : json :=
  JObj [("name", JStr "your-app-name");
        ("version", JStr "1.0.0");
        ("description", JStr "A Node.js API");
        ("type", JStr "module");
        ("scripts",
          JObj [("dev", JStr "node --watch src/index.js");
                ("start", JStr "node src/index.js");
                ("db:generate", JStr "drizzle-kit generate");
                ("db:migrate", JStr "drizzle-kit migrate");
                ("db:studio", JStr "drizzle-kit studio");
                ("test", JStr "jest")]);
        ("repository",
          JObj [("type", JStr "git");
                ("url", JStr "git+https://github.com/your-username/your-app-name.git")]);
        ("author", JStr "Your Name");
        ("license", JStr "MIT");
        ("bugs", JObj [("url", JStr "https://github.com/your-username/your-app-name/issues")]);
        ("homepage", JStr "https://github.com/your-username/your-app-name#readme");
        ("dependencies",
          JObj [("@neondatabase/serverless", JStr "^1.0.0");
                ("drizzle-orm", JStr "^0.44.0");
                ("express", JStr "^5.1.0")]);
        ("devDependencies",
          JObj [("drizzle-kit", JStr "^0.31.0");
                ("eslint", JStr "^9.0.0")])].

(** A template whose [repository] member is an array. *)
Definition repository_as_array : json :=
  JObj [("name", JStr "your-app-name");
        ("repository", JArr []);
        ("bugs", JObj [("url", JStr "https://github.com/your-username/your-app-name/issues")])].

Definition generated (cfg : ProjectConfig) (tpl : json) : json :=
  match packageJson cfg tpl with
  | inr pkg => pkg
  | inl _ => JNull
  end.

Fixpoint is_prefix (p s : list ascii) : bool :=
  match p, s with
  | [], _ => true
  | c :: p', x :: s' => Ascii.eqb c x && is_prefix p' s'
  | _ :: _, [] => false
  end.

(** [q] occurs in [s]. *)
Definition occurs (q s : list ascii) : Prop := exists a b, s = a ++ q ++ b.

Fixpoint occursb (q s : list ascii) : bool :=
  is_prefix q s
  || match s with
     | [] => false
     | _ :: s' => occursb q s'
     end.

(** The characters that make a replacement pattern of a [$] before
    them: [$$], [$&], [$`] and [$']. *)
Definition expanded_after_dollar (d : ascii) : bool :=
  Ascii.eqb d "$"%char || Ascii.eqb d "&"%char || Ascii.eqb d "`"%char
  || Ascii.eqb d "'"%char.

(** A replacement string with no replacement pattern in it.  (A [$]
    before any other character, or at the end, stands for itself: the
    patterns of the script have no groups.) *)
Fixpoint pattern_free (r : list ascii) : bool :=
  match r with
  | [] => true
  | c :: r' =>
      match r' with
      | d :: _ => negb (Ascii.eqb c "$"%char && expanded_after_dollar d)
      | [] => true
      end
      && pattern_free r'
  end.

(** Every occurrence of [p] replaced by [r], in the words of the
    specification: the text is cut at the first occurrence of [p], [r]
    stands in its place, and the same is done to what follows. *)
Inductive ReplacedAll (p r : list ascii) : list ascii -> list ascii -> Prop :=
| Replaced_none (s : list ascii) :
    ~ occurs p s -> ReplacedAll p r s s
| Replaced_first (a b o : list ascii) :
    ~ occurs p (a ++ removelast p) ->
    ReplacedAll p r b o ->
    ReplacedAll p r (a ++ p ++ b) (a ++ r ++ o).

Fixpoint edge (a b : list ascii) : bool :=
  match a with
  | [] => false
  | _ :: a' => is_prefix a b || edge a' b
  end.

Definition overlap (q r : list ascii) : bool :=
  edge q r || edge r q || occursb q r || occursb r q.

Definition sample_templateDir : string := "/opt/nodejs-devops-template/templates".

Definition sample_env : string :=
  lines ["NODE_ENV=development";
         "PORT=3000";
         "APP_NAME=your-app-name";
         "DOCKER_IMAGE=your-docker-username/your-app-name";
         EmptyString].

Definition sample_compose_dev : string :=
  lines ["services:";
         "  app:";
         "    container_name: ${PROJECT_NAME:-app}-dev";
         "    build: .";
         EmptyString].

Definition sample_compose_prod : string :=
  lines ["services:";
         "  app:";
         "    container_name: ${PROJECT_NAME:-app}-prod";
         "    image: ${PROJECT_NAME:-app}:latest";
         EmptyString].

Definition sample_workflow : string :=
  lines ["name: Build";
         "env:";
         "  IMAGE: ${{ secrets.DOCKER_USERNAME }}/your-app-name";
         EmptyString].

Definition sample_files : gmap string string :=
  list_to_map
    [(path_join [sample_templateDir; "config"; "package.json"], stringify sample_manifest);
     (path_join [sample_templateDir; "config"; ".env.example"], sample_env);
     (path_join [sample_templateDir; "docker"; "Dockerfile"], "FROM node:18-alpine");
     (path_join [sample_templateDir; "docker"; "docker-compose.dev.yml"], sample_compose_dev);
     (path_join [sample_templateDir; "docker"; "docker-compose.prod.yml"], sample_compose_prod);
     (path_join [sample_templateDir; "ci-cd"; "lint-and-format.yml"], sample_workflow);
     (path_join [sample_templateDir; "ci-cd"; "tests.yml"], sample_workflow);
     (path_join [sample_templateDir; "ci-cd"; "docker-build-and-push.yml"], sample_workflow)].

(** A host where no file-system call fails, [JSON.parse] knows the text of
    the sample manifest, and a child process fails when its command is
    [failing].  (Its table of upper cases is never looked at: the samples
    are ASCII.) *)
Definition sample_host (failing : string) : host := {|
  templateDir := sample_templateDir;
  JSON_parse := fun text =>
    if String.eqb text (stringify sample_manifest) then inr sample_manifest
    else inl "Unexpected token in JSON";
  upper_case := fun c => c;
  fs_fault := fun _ _ => None;
  written_before_fault := fun _ _ _ => None;
  execSync := fun command f =>
    if String.eqb command failing then (Some ("Command failed: " +:+ command), f)
    else (None, f);
|}.

(** A pattern for the examples, in the place of the literal of line 380:
    the text the replacement of that line puts back. *)
Definition sample_pattern : RegExp.pattern :=
  RegExp.literal "${{ secrets.DOCKER_USERNAME }}/your-app-name".

Definition sample_world (cfg : ProjectConfig) (input : list string)
    (templates : gmap string string) : World := {|
  projectConfig := cfg;
  stdin := input;
  console := [];
  fs := {| files := templates; dirs := ∅ |};
  rl_closed := false;
|}.

Definition token_in (token text : string) : bool := occursb (chars token) (chars text).

(** Steps 1 to 3 of [main]: collecting, building the directories,
    materializing the templates. *)
Definition preparation (h : host) (image_pattern : RegExp.pattern) : M unit :=
  showWelcome ;;
  collectProjectInfo ;;
  createProjectStructure h ;;
  processTemplateFiles h image_pattern.

(** Steps 4 and 5 and the summary. *)
Definition completion (h : host) : M unit :=
  installDependencies h ;;
  initializeGit h ;;
  showCompletion.

Definition install_header : list output :=
  [Out EmptyString; Out "📦 Installing dependencies..."].

Definition install_failure (e : string) : list output :=
  [Err ("  ❌ Failed to install dependencies: " +:+ e);
   Out "  ℹ️  You can install them manually later with: npm install"].

Definition git_header : list output :=
  [Out EmptyString; Out "🔄 Initializing Git repository..."].

Definition git_failure (e : string) : list output :=
  [Err ("  ❌ Failed to initialize Git: " +:+ e);
   Out "  ℹ️  You can initialize it manually later with: git init"].

Definition summary_head : list output :=
  [Out EmptyString;
   Out "🎉 Project initialization completed!";
   Out "==================================="].

(** The three commands of [initializeGit], up to the first that fails. *)
Definition git_commands (h : host) (f : FileSystem) : option string * FileSystem :=
  match execSync h "git init" f with
  | (Some e, f1) => (Some e, f1)
  | (None, f1) =>
      match execSync h "git add ." f1 with
      | (Some e, f2) => (Some e, f2)
      | (None, f2) => execSync h git_commit_command f2
      end
  end.

(** Everything [showCompletion] prints. *)
Definition summary (cfg : ProjectConfig) : list output :=
  summary_head
    ++ [Out EmptyString;
        Out "Next steps:";
        Out "1. Update .env file with your configuration";
        Out "2. Review and customize the generated files"]
    ++ (if f_cicd (features cfg) then
          [Out "3. Set up GitHub repository secrets:";
           Out "   - DOCKER_USERNAME";
           Out "   - DOCKER_PASSWORD"]
            ++ (if f_database (features cfg) then
                  [Out "   - DATABASE_URL"; Out "   - TEST_DATABASE_URL"]
                else [])
            ++ [Out "   - JWT_SECRET"]
        else [])
    ++ [Out EmptyString; Out "Start development:"]
    ++ (if f_docker (features cfg) then [Out "  npm run dev:docker  # With Docker"] else [])
    ++ [Out "  npm run dev         # Local development";
        Out EmptyString;
        Out "Happy coding! 🚀"].

(** The configuration with other redis and monitoring flags. *)
Definition reflag (redis monitoring : bool) (c : ProjectConfig) : ProjectConfig :=
  set_features (fun f => set_monitoring monitoring (set_redis redis f)) c.

Definition reflag_world (redis monitoring : bool) (w : World) : World :=
  with_config (reflag redis monitoring (projectConfig w)) w.

(** Two configurations that differ at most in those two flags. *)
Definition same_but_redis_monitoring (c1 c2 : ProjectConfig) : Prop :=
  name c1 = name c2
  /\ description c1 = description c2
  /\ author c1 = author c2
  /\ email c1 = email c2
  /\ dockerUsername c1 = dockerUsername c2
  /\ githubUsername c1 = githubUsername c2
  /\ database c1 = database c2
  /\ f_docker (features c1) = f_docker (features c2)
  /\ f_cicd (features c1) = f_cicd (features c2)
  /\ f_database (features c1) = f_database (features c2).

(** A computation that does the same whatever the two flags are. *)
Definition blind {A} (m : M A) : Prop :=
  forall redis monitoring w,
    m (reflag_world redis monitoring w)
    = (fst (m w), reflag_world redis monitoring (snd (m w))).

(** What is typed in the scenario of the specification. *)
Definition demo_answers : Answers := {|
  a_name := "demo";
  a_description := EmptyString;
  a_author := "Alice";
  a_email := "alice@example.com";
  a_github := "alice";
  a_dockerhub := EmptyString;
  a_docker := "y";
  a_cicd := EmptyString;
  a_database := "Y";
  a_dbType := EmptyString;
  a_redis := EmptyString;
  a_monitoring := EmptyString;
|}.

(** The scenario on a host whose installer fails. *)
Definition installer_fails : host := sample_host "npm install".

Definition scenario_world : World :=
  sample_world initialConfig (typed demo_answers) sample_files.




(** A computation that leaves the file system and the line reader alone
    and does not throw. *)
Definition quiet {A} (m : M A) : Prop :=
  forall w,
    fs (snd (m w)) = fs w
    /\ rl_closed (snd (m w)) = rl_closed w
    /\ forall e, fst (m w) <> Throw e.

(** Values [o[k].m = v] goes through on: objects and arrays. *)
Definition settable (v : option json) : bool :=
  match v with
  | Some (JObj _) | Some (JArr _) => true
  | _ => false
  end.

(** Values [delete o[k][m]] goes through on: anything but [undefined] and
    [null]. *)
Definition deletable (v : option json) : bool :=
  match v with
  | None | Some JNull => false
  | Some _ => true
  end.

Definition set_in (m : string) (u : json) (v : option json) : json :=
  match v with
  | Some (JObj r) => JObj (members_set m u r)
  | Some x => x
  | None => JNull
  end.

Definition delete_in (m : string) (v : option json) : json :=
  match v with
  | Some (JObj r) => JObj (members_delete m r)
  | Some x => x
  | None => JNull
  end.

Definition is_inr {A B} (x : A + B) : bool :=
  match x with
  | inr _ => true
  | inl _ => false
  end.

Definition always_files : list string :=
  ["package.json"; ".env.example"; ".env"; "src/index.js"; "src/server.js";
   ".gitignore"; "README.md"].

Definition docker_files : list string :=
  ["Dockerfile"; "docker-compose.dev.yml"; "docker-compose.prod.yml"; ".dockerignore"].

Definition workflow_files : list string :=
  [".github/workflows/lint-and-format.yml";
   ".github/workflows/tests.yml";
   ".github/workflows/docker-build-and-push.yml"].

(** The files the materializer is to write for a configuration. *)
Definition files_for (cfg : ProjectConfig) : list string :=
  always_files
    ++ (if f_docker (features cfg) then docker_files else [])
    ++ (if f_cicd (features cfg) then workflow_files else []).

(** Run from a world whose configuration is [c], the computation keeps
    the configuration and the directories, and changes no file outside
    [paths], however it ends. *)
Definition confined {A} (c : ProjectConfig) (paths : list string) (m : M A) : Prop :=
  forall w,
    projectConfig w = c ->
    projectConfig (snd (m w)) = c
    /\ dirs (fs (snd (m w))) = dirs (fs w)
    /\ forall p, ~ In p paths -> files (fs (snd (m w))) !! p = files (fs w) !! p.

(** Run from a world whose configuration is [c], the computation, when it
    returns, has kept the configuration and every file there was, and the
    files [paths] are there. *)
Definition ensures {A} (c : ProjectConfig) (paths : list string) (m : M A) : Prop :=
  forall w a w',
    projectConfig w = c ->
    m w = (Ok a, w') ->
    projectConfig w' = c
    /\ (forall p, is_Some (files (fs w) !! p) -> is_Some (files (fs w') !! p))
    /\ forall p, In p paths -> is_Some (files (fs w') !! p).

(** The computation writes no file, keeps the configuration and the
    directories there are, and makes no directory outside [allowed],
    however it ends. *)
Definition makes_only {A} (allowed : list string) (m : M A) : Prop :=
  forall w,
    projectConfig (snd (m w)) = projectConfig w
    /\ files (fs (snd (m w))) = files (fs w)
    /\ (forall d, d ∈ dirs (fs w) -> d ∈ dirs (fs (snd (m w))))
    /\ forall d, d ∈ dirs (fs (snd (m w))) -> d ∈ dirs (fs w) \/ In d allowed.

Definition materialized_world : World :=
  Eval vm_compute in
    snd (processTemplateFiles (sample_host EmptyString) sample_pattern
           (sample_world demo [] sample_files)).

(** The file system after the [mkdir]s of [ds], one after the other, when
    none of them fails. *)
Fixpoint made_in (h : host) (ds : list string) (f : FileSystem) : option FileSystem :=
  match ds with
  | [] => Some f
  | d :: ds' =>
      match fs_fault h f (Mkdir d) with
      | Some _ => None
      | None =>
          made_in h ds'
            {| files := files f;
               dirs := dirs f ∪ list_to_set (path_and_parents EmptyString d) |}
      end
  end.

(** A host on which a directory cannot be made where a file stands. *)
Definition file_in_the_way (path : string) : string :=
  "EEXIST: file already exists, mkdir '" +:+ path +:+ "'".

Definition strict_host : host := {|
  templateDir := sample_templateDir;
  JSON_parse := JSON_parse (sample_host EmptyString);
  upper_case := upper_case (sample_host EmptyString);
  fs_fault := fun f op =>
    match op with
    | Mkdir p =>
        match files f !! p with
        | Some _ => Some (file_in_the_way p)
        | None => None
        end
    | _ => None
    end;
  written_before_fault := fun _ _ _ => None;
  execSync := execSync (sample_host EmptyString);
|}.

(** The scenario's templates, and a file called [logs]. *)
Definition logs_is_a_file : World :=
  sample_world demo [] (<["logs" := "2024-01-01 started"]> sample_files).

(** The file system of that world once the twelve directories that come
    before [logs] in the list are made. *)
Definition before_logs : FileSystem :=
  Eval vm_compute in
    match
      made_in strict_host
        ["src"; "src/config"; "src/controllers"; "src/middleware"; "src/models";
         "src/routes"; "src/services"; "src/utils"; "src/validations";
         "tests"; "tests/unit"; "tests/integration"]
        (fs logs_is_a_file)
    with
    | Some f => f
    | None => fs logs_is_a_file
    end.

Definition dockerized_world : World :=
  Eval vm_compute in
    snd (processDockerFiles (sample_host EmptyString) (sample_world demo [] sample_files)).

(** A host on which the disk is full when the file [path] is written: the
    file is opened, and [n] characters go in. *)
Definition no_space : string := "ENOSPC: no space left on device, write".

Definition full_disk_host (path : string) (n : nat) : host := {|
  templateDir := sample_templateDir;
  JSON_parse := JSON_parse (sample_host EmptyString);
  upper_case := upper_case (sample_host EmptyString);
  fs_fault := fun _ op =>
    match op with
    | WriteFile p => if String.eqb p path then Some no_space else None
    | _ => None
    end;
  written_before_fault := fun _ _ _ => Some n;
  execSync := execSync (sample_host EmptyString);
|}.

Definition torn_manifest_world : World :=
  Eval vm_compute in
    snd (processPackageJson (full_disk_host "package.json" 2)
           (sample_world demo [] sample_files)).

Definition half_written_world : World :=
  Eval vm_compute in
    snd (processEnvFiles (full_disk_host ".env" 9) (sample_world demo [] sample_files)).

(** [a] is a beginning of [b]. *)
Definition begins (a b : string) : Prop := exists n, a = substring 0 n b.

(** * Properties *)

(** ** Case mapping *)

Lemma lower_char_n (c : ascii) : lower_char c = "n"%char -> c = "n"%char \/ c = "N"%char.
Proof.
  destruct c as [[] [] [] [] [] [] [] []]; vm_compute; intros H;
    first [ now left | now right | discriminate H ].
Qed.

Lemma lower_char_y (c : ascii) : lower_char c = "y"%char -> c = "y"%char \/ c = "Y"%char.
Proof.
  destruct c as [[] [] [] [] [] [] [] []]; vm_compute; intros H;
    first [ now left | now right | discriminate H ].
Qed.

Lemma toLowerCase_n (s : string) : toLowerCase s = "n" <-> s = "n" \/ s = "N".
Proof.
  split.
  - destruct s as [|c [|d s]]; simpl; intros H; try discriminate H.
    injection H as H. destruct (lower_char_n c H); subst; auto.
  - intros [-> | ->]; reflexivity.
Qed.

Lemma toLowerCase_y (s : string) : toLowerCase s = "y" <-> s = "y" \/ s = "Y".
Proof.
  split.
  - destruct s as [|c [|d s]]; simpl; intros H; try discriminate H.
    injection H as H. destruct (lower_char_y c H); subst; auto.
  - intros [-> | ->]; reflexivity.
Qed.

Lemma not_n_false (a : string) : not_n a = false <-> toLowerCase a = "n".
Proof.
  unfold not_n. rewrite negb_false_iff. apply String.eqb_eq.
Qed.

Lemma is_y_true (a : string) : is_y a = true <-> toLowerCase a = "y".
Proof. unfold is_y. apply String.eqb_eq. Qed.

(** ** The collector *)

Lemma collectProjectInfo_run (a : Answers) (rest : list string) (w : World) :
  collectProjectInfo (with_stdin (typed a ++ rest) w)
  = (Ok tt,
     {| projectConfig := collected a (projectConfig w);
        stdin := rest;
        console := rev (collector_prompts a) ++ console w;
        fs := fs w;
        rl_closed := rl_closed w |}).
Proof.
  destruct a as [nm de au em gh dh dk ci db ty re mo].
  destruct w as [c0 i0 o0 f0 r0].
  unfold typed, collected, collector_prompts; cbn [a_name a_description a_author a_email
    a_github a_dockerhub a_docker a_cicd a_database a_dbType a_redis a_monitoring].
  lazy -[not_n is_y or_else String.append].
  destruct (not_n db); reflexivity.
Qed.

(** C1.  Whatever is typed at the feature prompts, the collector returns
    with the docker, cicd, database and monitoring flags false exactly when
    the answer lowercases to [n], and the redis flag true exactly when the
    answer lowercases to [y]; the empty line lowercases to neither, and
    the lines that lowercase to [n] (to [y]) are [n] and [N] ([y] and
    [Y]). *)
Theorem collector_feature_flags (a : Answers) (rest : list string) (w : World) :
  exists w',
    collectProjectInfo (with_stdin (typed a ++ rest) w) = (Ok tt, w')
    /\ (f_docker (features (projectConfig w')) = false <-> toLowerCase (a_docker a) = "n")
    /\ (f_cicd (features (projectConfig w')) = false <-> toLowerCase (a_cicd a) = "n")
    /\ (f_database (features (projectConfig w')) = false <-> toLowerCase (a_database a) = "n")
    /\ (f_monitoring (features (projectConfig w')) = false
        <-> toLowerCase (a_monitoring a) = "n")
    /\ (f_redis (features (projectConfig w')) = true <-> toLowerCase (a_redis a) = "y")
    /\ toLowerCase EmptyString <> "n"
    /\ toLowerCase EmptyString <> "y"
    /\ (forall s, toLowerCase s = "n" <-> s = "n" \/ s = "N")
    /\ (forall s, toLowerCase s = "y" <-> s = "y" \/ s = "Y").
Proof.
  eexists. split; [apply collectProjectInfo_run|].
  lazy [projectConfig collected features f_docker f_cicd f_database f_monitoring f_redis].
  repeat split; try apply not_n_false; try apply is_y_true; try discriminate;
    try apply toLowerCase_n; try apply toLowerCase_y.
Qed.

(** The collector on an arbitrary input, line by line: where it stops when
    the input runs out, and what it has asked by then. *)
Ltac run_collector :=
  lazy -[not_n is_y or_else String.append In nth_error database_prompt app].

Ltac lines_before l o :=
  lazymatch l with
  | o => constr:(@nil output)
  | ?x :: ?l' => let p := lines_before l' o in constr:(x :: p)
  end.

Ltac give_new_lines :=
  lazymatch goal with
  | |- exists new, ?l = new ++ ?o /\ _ =>
      let p := lines_before l o in exists p; split; [reflexivity|]
  end.

Ltac no_database_prompt :=
  unfold database_prompt; cbn [In]; intuition discriminate.

Lemma collectProjectInfo_database (input : list string) (w : World) :
  let r := collectProjectInfo (with_stdin input w) in
  exists new,
    console (snd r) = new ++ console w
    /\ (In database_prompt new ->
        f_database (features (projectConfig (snd r))) = true
        /\ exists answer, nth_error input 8 = Some answer /\ not_n answer = true)
    /\ (forall answer, nth_error input 8 = Some answer -> not_n answer = false ->
        ~ In database_prompt new
        /\ f_database (features (projectConfig (snd r))) = false
        /\ database (projectConfig (snd r)) = database (projectConfig w)).
Proof.
  destruct w as [c0 i0 o0 f0 r0].
  do 9 (destruct input as [|? input];
        [ run_collector; give_new_lines;
          split; [ no_database_prompt | intros ? H; discriminate H ]
        | ]).
  run_collector.
  match goal with |- context [not_n ?x] => destruct (not_n x) eqn:Hdb end.
  - do 3 (destruct input as [|? input];
          [ run_collector; give_new_lines;
            split; [ intros _; split; [reflexivity | eauto]
                   | intros ? H; injection H as <-; congruence ]
          | ]).
    run_collector. give_new_lines.
    split; [ intros _; split; [reflexivity | eauto]
           | intros ? H; injection H as <-; congruence ].
  - do 2 (destruct input as [|? input];
          [ run_collector; give_new_lines;
            split; [ no_database_prompt
                   | intros ? _ _; split; [no_database_prompt | split; reflexivity] ]
          | ]).
    run_collector. give_new_lines.
    split; [ no_database_prompt
           | intros ? _ _; split; [no_database_prompt | split; reflexivity] ].
Qed.

(** C9.  Started from the initial configuration, on any input: the
    database-type prompt is only issued when the database flag has been
    set to true, and when the database answer (the ninth line) lowercases
    to [n] the prompt is not issued and the database field is still
    [postgresql], whatever lines follow. *)
Theorem database_type_prompt_guarded (input : list string) (w : World) :
  let r := collectProjectInfo (with_stdin input (with_config initialConfig w)) in
  exists new,
    printed new w (snd r)
    /\ (In database_prompt new -> f_database (features (projectConfig (snd r))) = true)
    /\ (forall answer, nth_error input 8 = Some answer -> toLowerCase answer = "n" ->
        ~ In database_prompt new
        /\ f_database (features (projectConfig (snd r))) = false
        /\ database (projectConfig (snd r)) = "postgresql").
Proof.
  destruct (collectProjectInfo_database input (with_config initialConfig w))
    as (new & Hc & Hp & Hn).
  exists (rev new). unfold printed. rewrite rev_involutive. split; [exact Hc|]. split.
  - intros H. apply in_rev in H. apply Hp, H.
  - intros answer Ha Hl. apply not_n_false in Hl.
    destruct (Hn answer Ha Hl) as (H1 & H2 & H3).
    split; [|split; assumption]. intros H. apply H1. apply in_rev, H.
Qed.

(** ** The directory skeleton *)

Lemma string_app_nil_r (s : string) : s +:+ EmptyString = s.
Proof.
  induction s as [|c s IH]; [reflexivity|].
  change (String c (s +:+ EmptyString) = String c s). now rewrite IH.
Qed.

Lemma string_app_cons (a : string) (c : ascii) (b : string) :
  (a +:+ String c EmptyString) +:+ b = a +:+ String c b.
Proof.
  induction a as [|x a IH]; [reflexivity|].
  change (String x ((a +:+ String c EmptyString) +:+ b) = String x (a +:+ String c b)).
  now rewrite IH.
Qed.

Lemma path_among_its_parents (done todo : string) :
  In (done +:+ todo) (path_and_parents done todo).
Proof.
  revert done. induction todo as [|c todo IH]; intros done; cbn [path_and_parents].
  - left. symmetry. apply string_app_nil_r.
  - destruct (Ascii.eqb c "/"%char) eqn:E.
    + right. apply Ascii.eqb_eq in E. subst c.
      rewrite <- string_app_cons. apply IH.
    + rewrite <- string_app_cons. apply IH.
Qed.

Lemma for_of_mkdir (h : host) (ds : list string) (w : World) :
  (forall f p, fs_fault h f (Mkdir p) = None) ->
  exists w',
    for_of ds (fun dir => mkdir h dir ;; console_log ("  ✅ Created: " +:+ dir +:+ "/")) w
    = (Ok tt, w')
    /\ (forall d, d ∈ dirs (fs w) -> d ∈ dirs (fs w'))
    /\ (forall d, In d ds -> d ∈ dirs (fs w'))
    /\ files (fs w') = files (fs w)
    /\ printed (map created_line ds) w w'.
Proof.
  intros Hok. revert w. induction ds as [|d ds IH]; intros w.
  - exists w. cbn [for_of]. repeat split; auto. intros d [].
  - cbn [for_of]. unfold bind at 1. unfold bind at 1. unfold mkdir at 1.
    rewrite Hok. unfold console_log at 1.
    match goal with |- context [for_of ds _ ?w1] => destruct (IH w1) as (w' & Hrun & Hold & Hnew & Hfiles & Hsaid) end.
    exists w'. split; [exact Hrun|].
    cbn [with_console with_fs fs dirs files console] in *.
    split; [|split; [|split]].
    + intros x Hx. apply Hold. set_solver.
    + intros x [<-|Hx]; [|auto]. apply Hold. apply elem_of_union. right.
      apply elem_of_list_to_set. apply list_elem_of_In.
      apply (path_among_its_parents EmptyString d).
    + exact Hfiles.
    + unfold printed in *. cbn [console map rev] in *. rewrite Hsaid, <- app_assoc.
      reflexivity.
Qed.

(** C5.  The list of directories the structure builder creates holds the
    fixed base set; [nginx] is in it exactly when the docker flag is set,
    [.github/workflows] exactly when the cicd flag is set.  When no
    [mkdir] fails, the builder returns, every directory of the list exists
    afterwards, and one line is printed for each, in the order of the
    list. *)
Theorem directories_by_feature (h : host) (w : World) :
  let cfg := projectConfig w in
  (forall d,
      In d ["src"; "src/config"; "src/controllers"; "src/middleware"; "src/models";
            "src/routes"; "src/services"; "src/utils"; "src/validations";
            "tests"; "tests/unit"; "tests/integration"; "logs"; "scripts"] ->
      In d (directories cfg))
  /\ (In "nginx" (directories cfg) <-> f_docker (features cfg) = true)
  /\ (In ".github/workflows" (directories cfg) <-> f_cicd (features cfg) = true)
  /\ ((forall f p, fs_fault h f (Mkdir p) = None) ->
      exists w',
        createProjectStructure h w = (Ok tt, w')
        /\ (forall d, In d (directories cfg) -> d ∈ dirs (fs w'))
        /\ printed ([Out EmptyString; Out "📁 Creating project structure..."]
                      ++ map created_line (directories cfg)) w w').
Proof.
  intros cfg. unfold directories. split; [|split; [|split]].
  - intros d Hd. apply in_or_app. left. exact Hd.
  - destruct (f_docker (features cfg)), (f_cicd (features cfg)); cbn;
      intuition (try discriminate; auto 20).
  - destruct (f_docker (features cfg)), (f_cicd (features cfg)); cbn;
      intuition (try discriminate; auto 20).
  - intros Hok. fold (directories cfg).
    unfold createProjectStructure, bind, console_log, get_config.
    cbn [with_console projectConfig].
    match goal with
    | |- context [for_of _ _ ?w1] =>
        destruct (for_of_mkdir h (directories cfg) w1 Hok)
          as (w' & Hrun & _ & Hnew & _ & Hsaid)
    end.
    exists w'. fold cfg. split; [exact Hrun|]. split; [exact Hnew|].
    unfold printed in *. cbn [console with_console] in Hsaid.
    rewrite Hsaid, rev_app_distr, <- app_assoc. reflexivity.
Qed.

(** ** The package manifest *)

Lemma members_get_set_eq (k : string) (v : json) (ms : list (string * json)) :
  members_get k (members_set k v ms) = Some v.
Proof.
  unfold members_get. induction ms as [|[k' v'] ms IH]; cbn.
  - rewrite String.eqb_refl. reflexivity.
  - destruct (String.eqb k' k) eqn:E; cbn.
    + rewrite String.eqb_refl. reflexivity.
    + rewrite E. exact IH.
Qed.

Lemma members_get_set_ne (k k' : string) (v : json) (ms : list (string * json)) :
  k' <> k -> members_get k (members_set k' v ms) = members_get k ms.
Proof.
  intros Hne. unfold members_get. induction ms as [|[k1 v1] ms IH]; cbn.
  - apply String.eqb_neq in Hne. rewrite Hne. reflexivity.
  - destruct (String.eqb k1 k') eqn:E; cbn.
    + apply String.eqb_eq in E. subst k1.
      apply String.eqb_neq in Hne. rewrite Hne. reflexivity.
    + destruct (String.eqb k1 k); [reflexivity | exact IH].
Qed.

Lemma members_set_names (k : string) (v : json) (ms : list (string * json)) :
  is_Some (members_get k ms) -> map fst (members_set k v ms) = map fst ms.
Proof.
  unfold members_get. induction ms as [|[k1 v1] ms IH]; cbn.
  - intros [? H]. discriminate H.
  - destruct (String.eqb k1 k) eqn:E; cbn.
    + intros _. apply String.eqb_eq in E. subst. reflexivity.
    + intros H. f_equal. apply IH, H.
Qed.

Lemma sum_bind_inr {A B} (r : string + A) (k : A -> string + B) (b : B) :
  sum_bind r k = inr b -> exists a, r = inr a /\ k a = inr b.
Proof. destruct r as [e|a]; cbn; [discriminate | eauto]. Qed.

Lemma without_nil (v : json) : without [] v = v.
Proof.
  destruct v; try reflexivity. cbn. f_equal.
  induction members as [|kv ms IH]; [reflexivity|].
  rewrite filter_cons. destruct (decide (fst kv ∉ [])) as [_|H].
  - f_equal. exact IH.
  - exfalso. apply H. apply not_elem_of_nil.
Qed.

Lemma without_without (ks1 ks2 : list string) (v : json) :
  without ks2 (without ks1 v) = without (ks1 ++ ks2) v.
Proof.
  destruct v; try reflexivity. cbn. f_equal.
  induction members as [|kv ms IH]; [reflexivity|].
  rewrite !filter_cons.
  destruct (decide (fst kv ∉ ks1)) as [H1|H1].
  - rewrite filter_cons. destruct (decide (fst kv ∉ ks2)) as [H2|H2].
    + destruct (decide (fst kv ∉ ks1 ++ ks2)) as [H|H].
      * f_equal. exact IH.
      * exfalso. apply H. intros Hin. apply elem_of_app in Hin. tauto.
    + destruct (decide (fst kv ∉ ks1 ++ ks2)) as [H|H].
      * exfalso. apply H2. intros Hin. apply H. apply elem_of_app. auto.
      * exact IH.
  - destruct (decide (fst kv ∉ ks1 ++ ks2)) as [H|H].
    + exfalso. apply H1. intros Hin. apply H. apply elem_of_app. auto.
    + exact IH.
Qed.

Lemma members_delete_without (k : string) (ms : list (string * json)) :
  JObj (members_delete k ms) = without [k] (JObj ms).
Proof.
  cbn. f_equal. unfold members_delete.
  induction ms as [|kv ms IH]; [reflexivity|].
  rewrite !filter_cons.
  destruct (decide (fst kv <> k)) as [H|H];
    destruct (decide (fst kv ∉ [k])) as [H'|H'].
  - f_equal. exact IH.
  - exfalso. apply H'. intros E. apply list_elem_of_singleton in E. auto.
  - exfalso. apply H. intros E. apply H'. apply list_elem_of_singleton. auto.
  - exact IH.
Qed.


Lemma get_path_cons (k : string) (ks : list string) (v : json) :
  get_path (k :: ks) v = get_path [k] v ≫= get_path ks.
Proof.
  destruct v; try reflexivity. cbn. destruct (members_get k members); reflexivity.
Qed.

(** One [delete o[k][m]] that comes through. *)
Lemma on_member_delete (k m : string) (p p' : json) :
  on_member k (Json.delete m) p = inr p' ->
  member_names p' = member_names p
  /\ forall k', get_path [k'] p'
                = (if decide (k' = k) then without [m] else id) <$> get_path [k'] p.
Proof.
  unfold on_member. intros H.
  apply sum_bind_inr in H as (v & Hg & H).
  apply sum_bind_inr in H as (v' & Hd & H).
  destruct p; cbn in Hg; try discriminate Hg;
    try (injection Hg as <-; cbn in Hd; discriminate Hd).
  injection Hg as <-. injection H as <-.
  destruct (members_get k members) as [v|] eqn:Hk; [|cbn in Hd; discriminate Hd].
  assert (v' = without [m] v) as ->.
  { destruct v; cbn in Hd; try discriminate Hd; try (injection Hd as <-; reflexivity).
    injection Hd as <-. apply members_delete_without. }
  split.
  - cbn. apply members_set_names. rewrite Hk. eauto.
  - intros k'. cbn. destruct (decide (k' = k)) as [->|Hne].
    + rewrite members_get_set_eq, Hk. reflexivity.
    + rewrite members_get_set_ne by congruence.
      destruct (members_get k' members); reflexivity.
Qed.

Lemma packageJson_split (cfg : ProjectConfig) (tpl : json) :
  packageJson cfg tpl
  = sum_bind (packageJson (enable_database cfg) tpl)
      (fun p => if f_database (features cfg) then inr p else strip_database p).
Proof.
  unfold packageJson, enable_database, strip_database.
  destruct cfg as [nm de au em du gu db [fd fc fdb fr fm]]; cbn -[on_member Json.set].
  unfold github_url; cbn -[on_member Json.set].
  repeat match goal with
         | |- sum_bind ?x _ = _ => destruct x; cbn [sum_bind]; [reflexivity|]
         end.
  destruct fdb; reflexivity.
Qed.

Lemma removed_from_other (k : string) :
  k <> "dependencies" -> k <> "devDependencies" -> k <> "scripts" -> removed_from k = [].
Proof.
  intros H1 H2 H3. unfold removed_from, database_keys.
  repeat (rewrite filter_cons; cbn [fst];
          match goal with
          | |- context [decide (?a = k)] => destruct (decide (a = k)); [congruence|]
          end).
  reflexivity.
Qed.

Lemma strip_database_spec (p p' : json) :
  strip_database p = inr p' ->
  member_names p' = member_names p
  /\ forall k, get_path [k] p' = without (removed_from k) <$> get_path [k] p.
Proof.
  unfold strip_database. intros H.
  apply sum_bind_inr in H as (p1 & H1 & H).
  apply sum_bind_inr in H as (p2 & H2 & H).
  apply sum_bind_inr in H as (p3 & H3 & H).
  apply sum_bind_inr in H as (p4 & H4 & H).
  apply sum_bind_inr in H as (p5 & H5 & H6).
  apply on_member_delete in H1 as [N1 G1], H2 as [N2 G2], H3 as [N3 G3],
    H4 as [N4 G4], H5 as [N5 G5], H6 as [N6 G6].
  split; [congruence|].
  intros k. rewrite G6, G5, G4, G3, G2, G1.
  destruct (get_path [k] p) as [v|]; [|repeat case_decide; reflexivity].
  cbn [fmap option_fmap option_map]. f_equal.
  destruct (decide (k = "dependencies")) as [->|Hd];
    [|destruct (decide (k = "devDependencies")) as [->|Hv];
      [|destruct (decide (k = "scripts")) as [->|Hs]]].
  - repeat (case_decide; try discriminate). cbn [id].
    rewrite without_without. reflexivity.
  - repeat (case_decide; try discriminate). cbn [id]. reflexivity.
  - repeat (case_decide; try discriminate). cbn [id].
    rewrite !without_without. reflexivity.
  - repeat (case_decide; try congruence). cbn [id].
    rewrite removed_from_other by assumption. symmetry. apply without_nil.
Qed.

Lemma set_frame (k k' : string) (v p p' : json) :
  Json.set k v (Some p) = inr p' -> k' <> k -> get_path [k'] p' = get_path [k'] p.
Proof.
  intros H Hne. destruct p; cbn in H; try discriminate H; injection H as <-;
    [reflexivity|].
  cbn. rewrite members_get_set_ne by congruence. reflexivity.
Qed.

Lemma set_hit (k : string) (v p p' : json) :
  Json.set k v (Some p) = inr p' -> is_object p = true ->
  get_path [k] p' = Some v /\ is_object p' = true.
Proof.
  intros H Ho. destruct p; try discriminate Ho. cbn in H. injection H as <-.
  cbn. rewrite members_get_set_eq. auto.
Qed.

Lemma on_member_frame (k k' : string) (op : option json -> string + json) (p p' : json) :
  on_member k op p = inr p' -> k' <> k -> get_path [k'] p' = get_path [k'] p.
Proof.
  unfold on_member. intros H Hne.
  apply sum_bind_inr in H as (v & Hg & H).
  apply sum_bind_inr in H as (v' & Hd & H).
  destruct p; injection H as <-; try reflexivity.
  cbn. rewrite members_get_set_ne by congruence. reflexivity.
Qed.

Lemma on_member_is_object (k : string) (op : option json -> string + json) (p p' : json) :
  on_member k op p = inr p' -> is_object p' = is_object p.
Proof.
  unfold on_member. intros H.
  apply sum_bind_inr in H as (v & Hg & H).
  apply sum_bind_inr in H as (v' & Hd & H).
  destruct p; injection H as <-; reflexivity.
Qed.

(** [o[k].m = v] that comes through: [o] is an object; when its member [k]
    is an object too, that member now has [m] set to [v]. *)
Lemma on_member_set (k m : string) (v p p' : json) :
  on_member k (Json.set m v) p = inr p' ->
  is_object p = true
  /\ forall r, get_path [k] p = Some (JObj r) -> get_path [k; m] p' = Some v.
Proof.
  unfold on_member. intros H.
  apply sum_bind_inr in H as (x & Hg & H).
  apply sum_bind_inr in H as (x' & Hs & H).
  destruct p; cbn in Hg; try discriminate Hg;
    try (injection Hg as <-; cbn in Hs; discriminate Hs).
  injection Hg as <-. injection H as <-.
  split; [reflexivity|]. intros r Hr. cbn in Hr.
  destruct (members_get k members) as [y|] eqn:Hk; [|discriminate Hr].
  injection Hr as ->. cbn in Hs. injection Hs as <-.
  cbn. rewrite members_get_set_eq. cbn. rewrite members_get_set_eq. reflexivity.
Qed.

Lemma string_app_assoc (a b c : string) : (a +:+ b) +:+ c = a +:+ b +:+ c.
Proof.
  induction a as [|x a IH]; [reflexivity|].
  change (String x ((a +:+ b) +:+ c) = String x (a +:+ b +:+ c)). now rewrite IH.
Qed.

Lemma packageJson_urls_enabled (cfg : ProjectConfig) (tpl pkg : json) :
  packageJson (enable_database cfg) tpl = inr pkg ->
  get_path ["homepage"] pkg = Some (JStr (homepage_url cfg))
  /\ forall r, get_path ["repository"] tpl = Some (JObj r) ->
               get_path ["repository"; "url"] pkg = Some (JStr (repository_url cfg)).
Proof.
  unfold packageJson. intros H.
  apply sum_bind_inr in H as (p1 & H1 & H).
  apply sum_bind_inr in H as (p2 & H2 & H).
  apply sum_bind_inr in H as (p3 & H3 & H).
  apply sum_bind_inr in H as (p4 & H4 & H).
  apply sum_bind_inr in H as (p5 & H5 & H).
  apply sum_bind_inr in H as (p6 & H6 & H).
  cbn [enable_database set_features features f_database set_db negb] in H.
  injection H as <-.
  change (github_url (enable_database cfg)) with (github_url cfg) in *.
  pose proof (on_member_set _ _ _ _ _ H4) as [Ho3 Hrepo].
  pose proof (on_member_is_object _ _ _ _ H4) as Ho4.
  pose proof (on_member_is_object _ _ _ _ H5) as Ho5.
  split.
  - apply set_hit in H6 as [-> _]; [|congruence].
    unfold homepage_url, github_url. rewrite !string_app_assoc. reflexivity.
  - intros r Hr.
    rewrite get_path_cons.
    rewrite (set_frame _ _ _ _ _ H6) by discriminate.
    rewrite (on_member_frame _ _ _ _ _ H5) by discriminate.
    rewrite <- get_path_cons.
    rewrite (Hrepo r).
    + unfold repository_url, github_url. rewrite !string_app_assoc. reflexivity.
    + rewrite (set_frame _ _ _ _ _ H3) by discriminate.
      rewrite (set_frame _ _ _ _ _ H2) by discriminate.
      rewrite (set_frame _ _ _ _ _ H1) by discriminate.
      exact Hr.
Qed.

Lemma packageJson_inr (cfg : ProjectConfig) (tpl pkg : json) :
  packageJson cfg tpl = inr pkg ->
  exists pkg',
    packageJson (enable_database cfg) tpl = inr pkg'
    /\ member_names pkg = member_names pkg'
    /\ forall k,
        get_path [k] pkg
        = without (if f_database (features cfg) then [] else removed_from k)
            <$> get_path [k] pkg'.
Proof.
  rewrite packageJson_split. intros H.
  apply sum_bind_inr in H as (pkg' & H' & H).
  exists pkg'. split; [exact H'|].
  destruct (f_database (features cfg)).
  - injection H as <-. split; [reflexivity|]. intros k.
    destruct (get_path [k] pkg'); cbn; [rewrite without_nil|]; reflexivity.
  - apply strip_database_spec in H. exact H.
Qed.

(** What [processPackageJson] writes is the text of that manifest. *)
Lemma processPackageJson_writes (h : host) (w w' : World) :
  processPackageJson h w = (Ok tt, w') ->
  exists text tpl pkg,
    files (fs w) !! path_join [templateDir h; "config"; "package.json"] = Some text
    /\ JSON_parse h text = inr tpl
    /\ packageJson (projectConfig w) tpl = inr pkg
    /\ files (fs w') !! "package.json" = Some (stringify pkg).
Proof.
  unfold processPackageJson, bind, readFile, writeFile, lift, get_config, console_log,
    throw, ret.
  intros H.
  destruct (fs_fault h (fs w) (ReadFile _)); [discriminate H|].
  destruct (files (fs w) !! _) as [text|] eqn:Ht; [|discriminate H].
  destruct (JSON_parse h text) as [e|tpl] eqn:Hp; [discriminate H|].
  destruct (packageJson (projectConfig w) tpl) as [e|pkg] eqn:Hj; [discriminate H|].
  destruct (fs_fault h (fs w) (WriteFile _)); [discriminate H|].
  injection H as <-. exists text, tpl, pkg. cbn.
  rewrite lookup_insert_eq. auto.
Qed.



(** C3, as the script has it.  In every manifest that is generated the
    homepage is [https://github.com/{githubUsername}/{name}#readme]; when
    the [repository] member of the template is an object, the repository
    URL is [git+https://github.com/{githubUsername}/{name}.git]. *)
Theorem manifest_urls (cfg : ProjectConfig) (tpl pkg : json) :
  packageJson cfg tpl = inr pkg ->
  get_path ["homepage"] pkg
  = Some (JStr ("https://github.com/" +:+ githubUsername cfg +:+ "/" +:+ name cfg
                  +:+ "#readme"))
  /\ forall r,
      get_path ["repository"] tpl = Some (JObj r) ->
      get_path ["repository"; "url"] pkg
      = Some (JStr ("git+https://github.com/" +:+ githubUsername cfg +:+ "/" +:+ name cfg
                      +:+ ".git")).
Proof.
  intros H. apply packageJson_inr in H as (pkg' & H' & _ & Hk).
  apply packageJson_urls_enabled in H' as [Hh Hu].
  assert (forall k, k = "repository" \/ k = "homepage" ->
                    get_path [k] pkg = get_path [k] pkg') as Hsame.
  { intros k Hcase. rewrite Hk.
    assert ((if f_database (features cfg) then [] else removed_from k) = []) as ->.
    { destruct (f_database (features cfg)); [reflexivity|].
      destruct Hcase as [-> | ->]; reflexivity. }
    destruct (get_path [k] pkg'); cbn; [rewrite without_nil|]; reflexivity. }
  split.
  - rewrite Hsame by auto. exact Hh.
  - intros r Hr. rewrite get_path_cons, Hsame by auto. rewrite <- get_path_cons.
    exact (Hu r Hr).
Qed.

Lemma manifest_urls_witness :
  get_path ["homepage"] (generated demo sample_manifest)
  = Some (JStr "https://github.com/alice/demo#readme")
  /\ get_path ["repository"; "url"] (generated demo sample_manifest)
     = Some (JStr "git+https://github.com/alice/demo.git").
Proof.
  destruct (manifest_urls demo sample_manifest (generated demo sample_manifest) eq_refl)
    as [Hh Hu].
  split; [exact Hh|].
  exact (Hu [("type", JStr "git");
             ("url", JStr "git+https://github.com/your-username/your-app-name.git")]
            eq_refl).
Defined.

(** C3 as stated fails.  The repository URL of the scenario's manifest is
    not [https://github.com/alice/demo.git].  And from a template whose
    [repository] member is an array the manifest is generated with the
    array as it was: it has no repository URL. *)
Lemma repository_url_is_not_plain_https :
  packageJson demo sample_manifest = inr (generated demo sample_manifest)
  /\ get_path ["repository"; "url"] (generated demo sample_manifest)
     <> Some (JStr "https://github.com/alice/demo.git")
  /\ packageJson demo repository_as_array = inr (generated demo repository_as_array)
  /\ get_path ["repository"] (generated demo repository_as_array) = Some (JArr [])
  /\ get_path ["repository"; "url"] (generated demo repository_as_array) = None.
Proof.
  split; [reflexivity|]. split; [vm_compute; discriminate|].
  repeat split; reflexivity.
Qed.

(** ** Replacing *)

Lemma of_chars_chars (s : string) : of_chars (chars s) = s.
Proof. apply string_of_list_ascii_of_string. Qed.

Lemma chars_of_chars (l : list ascii) : chars (of_chars l) = l.
Proof. apply list_ascii_of_string_of_list_ascii. Qed.

(** A character has to follow the end of the input: no match anywhere. *)
Lemma match_here_after_end (c d : ascii) (re : RegExp.pattern) (s : list ascii) :
  RegExp.match_here (RegExp.Chr c :: RegExp.EndOfInput :: RegExp.Chr d :: re) s = None.
Proof.
  destruct s as [|x [|y s]]; cbn; try reflexivity; destruct (Ascii.eqb c x); reflexivity.
Qed.

Lemma replace_from_unmatched (re : RegExp.pattern) (repl : list ascii) :
  (forall s, RegExp.match_here re s = None) ->
  forall s before, RegExp.replace_from re repl before 0 s = s.
Proof.
  intros Hno s. induction s as [|c s IH]; intros before; cbn [RegExp.replace_from].
  - rewrite Hno. reflexivity.
  - rewrite Hno, IH. reflexivity.
Qed.

Lemma replace_unmatched (re : RegExp.pattern) (repl s : string) :
  (forall s, RegExp.match_here re s = None) -> RegExp.replace re repl s = s.
Proof.
  intros Hno. unfold RegExp.replace. rewrite replace_from_unmatched by exact Hno.
  apply of_chars_chars.
Qed.

(** The compose templates are written as they are read. *)
Lemma composeContent_verbatim (cfg : ProjectConfig) (compose : string) :
  composeContent cfg compose = compose.
Proof.
  unfold composeContent. apply replace_unmatched. intros s.
  apply match_here_after_end.
Qed.

(** *** Literal patterns *)

Lemma is_prefix_spec (p s : list ascii) : is_prefix p s = true <-> exists t, s = p ++ t.
Proof.
  revert s. induction p as [|c p IH]; intros s; cbn.
  - split; eauto.
  - destruct s as [|x s].
    + split; [discriminate | intros [t Ht]; discriminate Ht].
    + rewrite andb_true_iff, Ascii.eqb_eq, IH. split.
      * intros [-> [t ->]]. eauto.
      * intros [t Ht]. injection Ht as -> ->. eauto.
Qed.

Lemma match_here_literal (p s : list ascii) :
  RegExp.match_here (map RegExp.Chr p) s
  = if is_prefix p s then Some (length p) else None.
Proof.
  revert s. induction p as [|c p IH]; intros s; cbn; [reflexivity|].
  destruct s as [|x s]; [reflexivity|].
  destruct (Ascii.eqb c x); cbn; [|reflexivity].
  rewrite IH. destruct (is_prefix p s); reflexivity.
Qed.

Lemma occursb_spec (q s : list ascii) : occursb q s = true <-> occurs q s.
Proof.
  induction s as [|x s IH].
  - cbn. rewrite orb_false_r, is_prefix_spec. split.
    + intros [t Ht]. exists [], t. exact Ht.
    + intros (a & b & H). destruct a; [|discriminate H]. eauto.
  - cbn [occursb]. rewrite orb_true_iff, IH, is_prefix_spec. split.
    + intros [[t Ht] | (a & b & ->)].
      * exists [], t. exact Ht.
      * exists (x :: a), b. reflexivity.
    + intros (a & b & H). destruct a as [|y a].
      * left. eauto.
      * injection H as -> ->. right. exists a, b. reflexivity.
Qed.

Lemma occurs_cons (q : list ascii) (x : ascii) (s : list ascii) :
  occurs q (x :: s) -> (exists t, x :: s = q ++ t) \/ occurs q s.
Proof.
  intros H. apply occursb_spec in H. cbn [occursb] in H.
  apply orb_true_iff in H as [H|H].
  - left. apply is_prefix_spec, H.
  - right. apply occursb_spec, H.
Qed.

Lemma occurs_app_l (q a b : list ascii) : occurs q a -> occurs q (a ++ b).
Proof.
  intros (u & v & ->). exists u, (v ++ b). now rewrite <- !app_assoc.
Qed.

Lemma occurs_app_r (q a b : list ascii) : occurs q b -> occurs q (a ++ b).
Proof.
  intros (u & v & ->). exists (a ++ u), v. now rewrite <- !app_assoc.
Qed.

Lemma expand_pattern_free (r matched before after : list ascii) :
  pattern_free r = true -> RegExp.expand r matched before after = r.
Proof.
  induction r as [|c r IH]; [reflexivity|].
  cbn [pattern_free]. rewrite andb_true_iff. intros [Hc Hr].
  cbn [RegExp.expand]. specialize (IH Hr).
  destruct (Ascii.eqb c "$"%char); [|now rewrite IH].
  destruct r as [|d r]; [reflexivity|].
  cbn [andb] in Hc. apply negb_true_iff in Hc.
  unfold expanded_after_dollar in Hc. rewrite !orb_false_iff in Hc.
  destruct Hc as [[[-> ->] ->] ->]. now rewrite IH.
Qed.

Lemma replace_from_skip (re : RegExp.pattern) (repl x b before : list ascii) :
  RegExp.replace_from re repl before (length x) (x ++ b)
  = RegExp.replace_from re repl (before ++ x) 0 b.
Proof.
  revert before. induction x as [|c x IH]; intros before.
  - cbn [length app]. rewrite app_nil_r. reflexivity.
  - cbn [length app RegExp.replace_from]. rewrite IH, <- app_assoc. reflexivity.
Qed.

Lemma occurs_length (q s : list ascii) : occurs q s -> length q <= length s.
Proof. intros (a & b & ->). rewrite !length_app. lia. Qed.

Section Literal.

(** A literal pattern [p], not empty, and a replacement [r] without a
    replacement pattern. *)
Context (p r : list ascii).
Hypothesis p_not_empty : p <> [].
Hypothesis r_pattern_free : pattern_free r = true.

Let go := RegExp.replace_from (map RegExp.Chr p) r.

Lemma removelast_shorter : ~ occurs p (removelast p).
Proof.
  intros H. apply occurs_length in H.
  rewrite (app_removelast_last "$"%char p_not_empty) in H at 1.
  rewrite length_app in H. cbn in H. lia.
Qed.

Lemma go_at_match (b before : list ascii) :
  go before 0 (p ++ b) = r ++ go (before ++ p) 0 b.
Proof.
  unfold go. destruct p as [|c p'] eqn:Hp; [contradiction|].
  cbn [app RegExp.replace_from].
  rewrite <- Hp. change (c :: p' ++ b) with ((c :: p') ++ b). rewrite <- Hp.
  rewrite match_here_literal.
  assert (is_prefix p (p ++ b) = true) as -> by (apply is_prefix_spec; eauto).
  rewrite Hp. cbn [length]. rewrite expand_pattern_free by exact r_pattern_free.
  f_equal. rewrite replace_from_skip, <- app_assoc. reflexivity.
Qed.

Lemma go_no_match (c : ascii) (s before : list ascii) :
  is_prefix p (c :: s) = false -> go before 0 (c :: s) = c :: go (before ++ [c]) 0 s.
Proof.
  intros H. unfold go. cbn [RegExp.replace_from].
  rewrite match_here_literal, H. reflexivity.
Qed.

Lemma go_nil (before : list ascii) : go before 0 [] = [].
Proof.
  unfold go. cbn [RegExp.replace_from]. rewrite match_here_literal.
  destruct p; [contradiction | reflexivity].
Qed.

(** The scan up to the first occurrence. *)
Lemma go_first_occurrence (s before : list ascii) :
  (~ occurs p s /\ go before 0 s = s)
  \/ exists a b,
      s = a ++ p ++ b
      /\ ~ occurs p (a ++ removelast p)
      /\ go before 0 s = a ++ r ++ go (before ++ a ++ p) 0 b.
Proof.
  revert before. induction s as [|c s IH]; intros before.
  - left. split; [|apply go_nil].
    intros H. apply occurs_length in H. destruct p; [contradiction | cbn in H; lia].
  - destruct (is_prefix p (c :: s)) eqn:Hm.
    + right. apply is_prefix_spec in Hm as [b Hb]. exists [], b.
      split; [exact Hb|]. split; [apply removelast_shorter|].
      rewrite Hb. cbn [app]. rewrite go_at_match. reflexivity.
    + rewrite (go_no_match _ _ _ Hm).
      destruct (IH (before ++ [c])) as [[Hno Hgo] | (a & b & Hs & Hfirst & Hgo)].
      * left. split; [|now rewrite Hgo].
        intros H. apply occurs_cons in H as [H|H]; [|contradiction].
        apply is_prefix_spec in H. congruence.
      * right. exists (c :: a), b. split; [now rewrite Hs|]. split.
        -- intros H. cbn [app] in H. apply occurs_cons in H as [[t Ht]|H]; [|contradiction].
           assert (is_prefix p (c :: s) = true) as Hp; [|congruence].
           apply is_prefix_spec. exists (t ++ [List.last p "$"%char] ++ b).
           rewrite Hs. rewrite (app_removelast_last "$"%char p_not_empty) at 1.
           rewrite <- app_assoc. rewrite app_assoc.
           change (c :: (a ++ removelast p) ++ [List.last p "$"%char] ++ b)
             with ((c :: a ++ removelast p) ++ [List.last p "$"%char] ++ b).
           rewrite Ht, <- app_assoc. reflexivity.
        -- rewrite Hgo, <- !app_assoc. reflexivity.
Qed.

Lemma go_replaces_all (s before : list ascii) : ReplacedAll p r s (go before 0 s).
Proof.
  remember (length s) as n eqn:Hn. revert s before Hn.
  induction n as [n IH] using lt_wf_ind. intros s before Hn.
  destruct (go_first_occurrence s before) as [[Hno ->] | (a & b & Hs & Hfirst & ->)].
  - apply Replaced_none, Hno.
  - rewrite Hs. apply Replaced_first; [exact Hfirst|].
    apply (IH (length b)); [|reflexivity].
    subst n s. rewrite !length_app. destruct p; [contradiction | cbn; lia].
Qed.

End Literal.

(** *** When a replacement cannot bring a token back

    [edge a b]: some ending of [a], not empty, is a beginning of [b].
    [overlap q r]: a copy of [q] and a copy of [r] can share characters. *)

Lemma edge_intro (u k t : list ascii) : k <> [] -> edge (u ++ k) (k ++ t) = true.
Proof.
  intros Hk. induction u as [|x u IH]; cbn [app].
  - destruct k as [|c k]; [contradiction|]. cbn [edge].
    apply orb_true_iff. left. apply is_prefix_spec. eauto.
  - cbn [edge]. rewrite IH. apply orb_true_r.
Qed.

Lemma overlap_false (q r : list ascii) :
  overlap q r = false ->
  edge q r = false /\ edge r q = false /\ ~ occurs q r /\ ~ occurs r q.
Proof.
  unfold overlap. rewrite !orb_false_iff. intros [[[H1 H2] H3] H4].
  repeat split; try assumption.
  - intros H. apply occursb_spec in H. congruence.
  - intros H. apply occursb_spec in H. congruence.
Qed.

(** An occurrence of [q] around a copy of [r] lies before it or after it. *)
Lemma occurs_around (q r x y : list ascii) :
  overlap q r = false -> occurs q (x ++ r ++ y) -> occurs q x \/ occurs q y.
Proof.
  intros Hsep (u & v & H). apply overlap_false in Hsep as (Eqr & Erq & Nqr & Nrq).
  apply app_eq_app in H as [l [[-> H] | [-> H]]].
  - apply app_eq_app in H as [l' [[Hq H] | [-> _]]].
    + destruct l' as [|c l'].
      * left. exists u, []. rewrite Hq, !app_nil_r. reflexivity.
      * exfalso. apply app_eq_app in H as [l'' [[Hr _] | [Hl _]]].
        -- rewrite Hq, Hr, (edge_intro l (c :: l') l'') in Eqr by discriminate.
           discriminate Eqr.
        -- apply Nrq. exists l, l''. rewrite Hq, Hl. reflexivity.
    + left. exists u, l'. rewrite <- ?app_assoc. reflexivity.
  - apply app_eq_app in H as [l' [[Hr H] | [-> ->]]].
    + destruct l' as [|c l'].
      * right. exists [], v. cbn in H. cbn. congruence.
      * exfalso. apply app_eq_app in H as [l'' [[Hq _] | [Hl _]]].
        -- rewrite Hq, Hr, (edge_intro l (c :: l') l'') in Erq by discriminate.
           discriminate Erq.
        -- apply Nqr. exists l, l''. rewrite Hr, Hl. reflexivity.
    + right. exists l', v. reflexivity.
Qed.

Section NoToken.

Context (p r : list ascii).

(** The token replaced does not remain. *)
Lemma replaced_token_gone (s o : list ascii) :
  overlap p r = false -> ReplacedAll p r s o -> ~ occurs p o.
Proof.
  intros Hsep H. induction H as [s Hno | a b o Hfirst _ IH]; [exact Hno|].
  intros Ho. apply occurs_around in Ho as [Ho|Ho]; [|contradiction|exact Hsep].
  apply Hfirst. apply occurs_app_l, Ho.
Qed.

(** A token that was not there does not come in. *)
Lemma replaced_token_stays_out (q s o : list ascii) :
  overlap q r = false -> ReplacedAll p r s o -> ~ occurs q s -> ~ occurs q o.
Proof.
  intros Hsep H. induction H as [s Hno | a b o Hfirst _ IH]; [auto|].
  intros Hs Ho. apply occurs_around in Ho as [Ho|Ho]; [| |exact Hsep].
  - apply Hs. apply occurs_app_l, Ho.
  - apply IH; [|exact Ho]. intros Hb. apply Hs. apply occurs_app_r, occurs_app_r, Hb.
Qed.

End NoToken.

(** ** The docker files *)

(** C4 at the scenario of the specification: with name [demo] and the
    docker flag set, the compose files written are the templates as they
    are; the token [${PROJECT_NAME:-app}] is still in them and [demo] is
    not. *)
Theorem compose_files_keep_the_default_token :
  let r := processDockerFiles (sample_host EmptyString) (sample_world demo [] sample_files) in
  fst r = Ok tt
  /\ files (fs (snd r)) !! "docker-compose.dev.yml" = Some sample_compose_dev
  /\ files (fs (snd r)) !! "docker-compose.prod.yml" = Some sample_compose_prod
  /\ token_in "${PROJECT_NAME:-app}" sample_compose_dev = true
  /\ token_in "${PROJECT_NAME:-demo}" sample_compose_dev = false
  /\ token_in "demo" sample_compose_dev = false.
Proof.
  vm_compute. repeat split; reflexivity.
Qed.

(** ** The environment files *)

Lemma chars_replace (re : RegExp.pattern) (repl s : string) :
  chars (RegExp.replace re repl s) = RegExp.replace_from re (chars repl) [] 0 (chars s).
Proof. unfold RegExp.replace. apply chars_of_chars. Qed.

Lemma processEnvFiles_writes (h : host) (w w' : World) :
  processEnvFiles h w = (Ok tt, w') ->
  exists template,
    files (fs w) !! path_join [templateDir h; "config"; ".env.example"] = Some template
    /\ files (fs w') !! ".env.example" = Some (envContent (projectConfig w) template)
    /\ files (fs w') !! ".env" = Some (envContent (projectConfig w) template).
Proof.
  unfold processEnvFiles, bind, readFile, writeFile, get_config, console_log.
  intros H.
  destruct (fs_fault h (fs w) (ReadFile _)); [discriminate H|].
  destruct (files (fs w) !! _) as [template|] eqn:Ht; [|discriminate H].
  cbn [with_fs fs files] in H.
  destruct (fs_fault h (fs w) (WriteFile ".env.example")); [discriminate H|].
  cbn [with_fs fs files dirs] in H.
  destruct (fs_fault h _ (WriteFile ".env")); [discriminate H|].
  injection H as <-. exists template. split; [reflexivity|].
  cbn [with_fs with_console fs files]. split.
  - rewrite lookup_insert_ne by discriminate. apply lookup_insert_eq.
  - apply lookup_insert_eq.
Qed.

(** Without a replacement pattern in the two values, the content written
    is the template with every [your-app-name] replaced, and then every
    [your-docker-username]. *)
Lemma envContent_replaced (cfg : ProjectConfig) (template : string) :
  pattern_free (chars (name cfg)) = true ->
  pattern_free (chars (dockerUsername cfg)) = true ->
  exists between,
    ReplacedAll (chars app_name_token) (chars (name cfg)) (chars template) between
    /\ ReplacedAll (chars docker_username_token) (chars (dockerUsername cfg))
         between (chars (envContent cfg template)).
Proof.
  intros Hn Hd. unfold envContent. rewrite !chars_replace.
  eexists. split.
  - apply go_replaces_all; [discriminate | exact Hn].
  - apply go_replaces_all; [discriminate | exact Hd].
Qed.

(** C6, as the script has it.  When [processEnvFiles] comes through,
    [.env.example] and [.env] hold the same content.  When neither the
    name nor the docker username has one of the replacement patterns [$$],
    [$&], [$`], [$'] in it, that content is the template with every
    occurrence of [your-app-name] replaced by the name and then every
    occurrence of [your-docker-username] replaced by the docker username.
    When, besides, neither value overlaps [your-app-name] and the docker
    username does not overlap [your-docker-username], no placeholder token
    is left. *)
Theorem env_files_substituted (h : host) (w w' : World) :
  processEnvFiles h w = (Ok tt, w') ->
  exists template written,
    files (fs w) !! path_join [templateDir h; "config"; ".env.example"] = Some template
    /\ files (fs w') !! ".env.example" = Some written
    /\ files (fs w') !! ".env" = Some written
    /\ (pattern_free (chars (name (projectConfig w))) = true ->
        pattern_free (chars (dockerUsername (projectConfig w))) = true ->
        (exists between,
            ReplacedAll (chars app_name_token) (chars (name (projectConfig w)))
              (chars template) between
            /\ ReplacedAll (chars docker_username_token)
                 (chars (dockerUsername (projectConfig w))) between (chars written))
        /\ (overlap (chars app_name_token) (chars (name (projectConfig w))) = false ->
            overlap (chars app_name_token) (chars (dockerUsername (projectConfig w))) = false ->
            overlap (chars docker_username_token)
              (chars (dockerUsername (projectConfig w))) = false ->
            ~ occurs (chars app_name_token) (chars written)
            /\ ~ occurs (chars docker_username_token) (chars written))).
Proof.
  intros H. apply processEnvFiles_writes in H as (template & Ht & He & Hv).
  exists template, (envContent (projectConfig w) template).
  split; [exact Ht|]. split; [exact He|]. split; [exact Hv|].
  intros Hn Hd.
  destruct (envContent_replaced (projectConfig w) template Hn Hd) as (between & R1 & R2).
  split; [eauto|]. intros O1 O2 O3. split.
  - apply (replaced_token_stays_out _ _ _ _ _ O2 R2).
    apply (replaced_token_gone _ _ _ _ O1 R1).
  - apply (replaced_token_gone _ _ _ _ O3 R2).
Qed.

(** A project called [cost$-1], with the docker username [a$b]. *)
Lemma env_files_substituted_witness :
  let w := sample_world (set_dockerUsername "a$b" (set_name "cost$-1" demo)) [] sample_files in
  let w' := snd (processEnvFiles (sample_host EmptyString) w) in
  exists written,
    files (fs w') !! ".env.example" = Some written
    /\ files (fs w') !! ".env" = Some written
    /\ ~ occurs (chars app_name_token) (chars written)
    /\ ~ occurs (chars docker_username_token) (chars written).
Proof.
  intros w w'.
  destruct (env_files_substituted (sample_host EmptyString) w w')
    as (template & written & _ & He & Hv & Hr); [reflexivity|].
  exists written. split; [exact He|]. split; [exact Hv|].
  destruct Hr as [_ Hno]; [reflexivity | reflexivity |].
  apply Hno; reflexivity.
Defined.

(** C6 as stated fails.  For a project that keeps the name
    [your-app-name], the token is in the [.env] written.  And a name with
    one of the four replacement patterns in it is not what the occurrences
    are replaced by: [$&] gives the token back, [$$] a single [$], [$`]
    and [$'] what stands before and after the occurrence. *)
Lemma env_placeholder_can_remain :
  let w := sample_world (set_name "your-app-name" demo) [] sample_files in
  let w' := snd (processEnvFiles (sample_host EmptyString) w) in
  exists written,
    fst (processEnvFiles (sample_host EmptyString) w) = Ok tt
    /\ files (fs w') !! ".env" = Some written
    /\ token_in app_name_token written = true
    /\ envContent (set_name "x$&" demo) "APP_NAME=your-app-name" = "APP_NAME=xyour-app-name"
    /\ envContent (set_name "a$$b" demo) "APP_NAME=your-app-name" = "APP_NAME=a$b"
    /\ envContent (set_name "x$`" demo) "APP_NAME=your-app-name" = "APP_NAME=xAPP_NAME="
    /\ envContent (set_name "x$'" demo) "APP_NAME=your-app-name;" = "APP_NAME=x;;".
Proof.
  eexists. vm_compute. repeat split; reflexivity.
Qed.

(** ** The run as a whole *)

Lemma bind_assoc {A B C} (m : M A) (k1 : A -> M B) (k2 : B -> M C) (w : World) :
  bind (bind m k1) k2 w = bind m (fun a => bind (k1 a) k2) w.
Proof. unfold bind. destruct (m w) as [[a|e|] w']; reflexivity. Qed.

Lemma initialization_steps (h : host) (p : RegExp.pattern) (w : World) :
  initialization h p w = bind (preparation h p) (fun _ => completion h) w.
Proof.
  unfold initialization, preparation, completion. rewrite !bind_assoc.
  unfold bind. destruct (showWelcome w) as [[[]|e|] w1]; try reflexivity.
  destruct (collectProjectInfo w1) as [[[]|e|] w2]; try reflexivity.
  destruct (createProjectStructure h w2) as [[[]|e|] w3]; reflexivity.
Qed.

Lemma installDependencies_run (h : host) (w : World) :
  installDependencies h w
  = (Ok tt,
     {| projectConfig := projectConfig w;
        stdin := stdin w;
        console :=
          rev (install_header
                 ++ match fst (execSync h "npm install" (fs w)) with
                    | Some e => install_failure e
                    | None => [Out "  ✅ Dependencies installed successfully"]
                    end)
            ++ console w;
        fs := snd (execSync h "npm install" (fs w));
        rl_closed := rl_closed w |}).
Proof.
  destruct w as [c i o f0 r].
  lazy [installDependencies bind try_catch exec console_log console_error
        with_console with_fs console fs projectConfig stdin rl_closed].
  destruct (execSync h "npm install" f0) as [[e|] f]; reflexivity.
Qed.

Lemma initializeGit_run (h : host) (w : World) :
  initializeGit h w
  = (Ok tt,
     {| projectConfig := projectConfig w;
        stdin := stdin w;
        console :=
          rev (git_header
                 ++ match fst (git_commands h (fs w)) with
                    | Some e => git_failure e
                    | None => [Out "  ✅ Git repository initialized"]
                    end)
            ++ console w;
        fs := snd (git_commands h (fs w));
        rl_closed := rl_closed w |}).
Proof.
  destruct w as [c i o f0 r].
  lazy [initializeGit git_commands bind try_catch exec console_log console_error
        with_console with_fs console fs projectConfig stdin rl_closed].
  destruct (execSync h "git init" f0) as [[e|] f1]; [reflexivity|].
  destruct (execSync h "git add ." f1) as [[e|] f2]; [reflexivity|].
  destruct (execSync h git_commit_command f2) as [[e|] f3]; reflexivity.
Qed.

Lemma showCompletion_run (w : World) :
  showCompletion w = (Ok tt, with_console (rev (summary (projectConfig w)) ++ console w) w).
Proof.
  destruct w as [[nm de au em du gu db [fd fc fdb fr fm]] i o f r].
  destruct fc, fdb, fd; reflexivity.
Qed.

Lemma completion_run (h : host) (w : World) :
  exists w2 w3 w4,
    installDependencies h w = (Ok tt, w2)
    /\ initializeGit h w2 = (Ok tt, w3)
    /\ showCompletion w3 = (Ok tt, w4)
    /\ completion h w = (Ok tt, w4)
    /\ (forall e, fst (execSync h "npm install" (fs w)) = Some e ->
        printed (install_header ++ install_failure e) w w2)
    /\ (forall e, fst (git_commands h (fs w2)) = Some e ->
        printed (git_header ++ git_failure e) w2 w3)
    /\ printed (summary (projectConfig w3)) w3 w4.
Proof.
  eexists _, _, _.
  split; [apply installDependencies_run|].
  split; [apply initializeGit_run|].
  split; [apply showCompletion_run|].
  split.
  - unfold completion, bind.
    rewrite installDependencies_run, initializeGit_run, showCompletion_run. reflexivity.
  - split; [|split].
    + intros e He. unfold printed. cbn [console]. rewrite He. reflexivity.
    + intros e He. unfold printed. cbn [console fs] in *. rewrite He. reflexivity.
    + reflexivity.
Qed.

(** C7, at the script as it stands.  The literal of line 380 is rejected:
    its body ends at the slash after the last doubled backslash, and
    [your] is read as its flags.  So a run of the script ends with status 1
    before any of its statements, whatever the host, the input and the
    steps are: the installer is not reached, nothing is caught or logged,
    no summary is printed. *)
Theorem script_is_rejected_when_loaded (body : World -> ending * World) (w : World) :
  regex_literal line_380 = inl "Invalid regular expression flags"
  /\ run_script body w = (Exited 1, w).
Proof. split; reflexivity. Qed.


(** ** The flags nothing reads *)

Lemma blind_ret {A} (a : A) : blind (ret a).
Proof. intros r m w. reflexivity. Qed.

Lemma blind_throw {A} (e : string) : blind (@throw A e).
Proof. intros r m w. reflexivity. Qed.

Lemma blind_lift {A} (x : string + A) : blind (lift x).
Proof. destruct x; [apply blind_throw | apply blind_ret]. Qed.

Lemma blind_bind {A B} (m : M A) (k : A -> M B) :
  blind m -> (forall a, blind (k a)) -> blind (bind m k).
Proof.
  intros Hm Hk r mo w. unfold bind. rewrite Hm.
  destruct (m w) as [[a|e|] w1]; cbn [fst snd]; [apply Hk | reflexivity | reflexivity].
Qed.

Lemma blind_console_log (text : string) : blind (console_log text).
Proof. intros r m w. reflexivity. Qed.

Lemma blind_mkdir (h : host) (path : string) : blind (mkdir h path).
Proof.
  intros r m w. unfold mkdir. cbn [reflag_world with_config fs].
  destruct (fs_fault h (fs w) (Mkdir path)); reflexivity.
Qed.

Lemma blind_readFile (h : host) (path : string) : blind (readFile h path).
Proof.
  intros r m w. unfold readFile. cbn [reflag_world with_config fs].
  destruct (fs_fault h (fs w) (ReadFile path)); [reflexivity|].
  destruct (files (fs w) !! path); reflexivity.
Qed.

Lemma blind_writeFile (h : host) (path text : string) : blind (writeFile h path text).
Proof.
  intros r m w. unfold writeFile. cbn [reflag_world with_config fs].
  destruct (fs_fault h (fs w) (WriteFile path)); reflexivity.
Qed.

Lemma blind_copyFile (h : host) (src dest : string) : blind (copyFile h src dest).
Proof.
  intros r m w. unfold copyFile. cbn [reflag_world with_config fs].
  destruct (fs_fault h (fs w) (CopyFile src dest)); [reflexivity|].
  destruct (files (fs w) !! src); reflexivity.
Qed.

Lemma blind_for_of {A} (xs : list A) (body : A -> M unit) :
  (forall x, blind (body x)) -> blind (for_of xs body).
Proof.
  intros Hb. induction xs as [|x xs IH]; cbn [for_of].
  - apply blind_ret.
  - apply blind_bind; [apply Hb | intros _; exact IH].
Qed.

(** Reading the configuration is blind when what is done with it does not
    look at the two flags. *)
Lemma blind_get_config {B} (k : ProjectConfig -> M B) :
  (forall c, blind (k c)) ->
  (forall redis monitoring c, k (reflag redis monitoring c) = k c) ->
  blind (bind get_config k).
Proof.
  intros Hk Hsame r m w. unfold bind, get_config.
  cbn [reflag_world with_config projectConfig]. rewrite Hsame. apply Hk.
Qed.

Lemma blind_if {A} (b : bool) (m1 m2 : M A) :
  blind m1 -> blind m2 -> blind (if b then m1 else m2).
Proof. destruct b; auto. Qed.

Ltac blind_step :=
  first
    [ apply blind_ret
    | apply blind_console_log
    | apply blind_mkdir
    | apply blind_readFile
    | apply blind_writeFile
    | apply blind_copyFile
    | apply blind_lift
    | apply blind_if
    | apply blind_for_of; intros ?
    | apply blind_get_config; [intros ? | intros ? ? ?; reflexivity]
    | apply blind_bind; [|intros ?] ].

Ltac blind_all := repeat blind_step.

Lemma blind_createProjectStructure (h : host) : blind (createProjectStructure h).
Proof. unfold createProjectStructure. blind_all. Qed.

Lemma blind_processPackageJson (h : host) : blind (processPackageJson h).
Proof. unfold processPackageJson. blind_all. Qed.

Lemma blind_processEnvFiles (h : host) : blind (processEnvFiles h).
Proof. unfold processEnvFiles. blind_all. Qed.

Lemma blind_processDockerFiles (h : host) : blind (processDockerFiles h).
Proof. unfold processDockerFiles. blind_all. Qed.

Lemma blind_processCICDFiles (h : host) (p : RegExp.pattern) :
  blind (processCICDFiles h p).
Proof. unfold processCICDFiles. blind_all. Qed.

Lemma blind_createBaseCodeFiles (h : host) : blind (createBaseCodeFiles h).
Proof. unfold createBaseCodeFiles. blind_all. Qed.

Lemma blind_createConfigFiles (h : host) : blind (createConfigFiles h).
Proof. unfold createConfigFiles. blind_all. Qed.

Lemma blind_processTemplateFiles (h : host) (p : RegExp.pattern) :
  blind (processTemplateFiles h p).
Proof.
  unfold processTemplateFiles.
  repeat first
    [ apply blind_processPackageJson
    | apply blind_processEnvFiles
    | apply blind_processDockerFiles
    | apply blind_processCICDFiles
    | apply blind_createBaseCodeFiles
    | apply blind_createConfigFiles
    | blind_step ].
Qed.

Lemma same_but_reflag (c1 c2 : ProjectConfig) :
  same_but_redis_monitoring c1 c2 ->
  c2 = reflag (f_redis (features c2)) (f_monitoring (features c2)) c1.
Proof.
  destruct c1 as [n1 d1 a1 e1 du1 g1 db1 [fd1 fc1 fb1 fr1 fm1]].
  destruct c2 as [n2 d2 a2 e2 du2 g2 db2 [fd2 fc2 fb2 fr2 fm2]].
  unfold same_but_redis_monitoring. cbn.
  intros (-> & -> & -> & -> & -> & -> & -> & -> & -> & ->). reflexivity.
Qed.

(** C10.  For two configurations that differ only in the redis and
    monitoring flags, building the directories and materializing the
    templates end the same way, leave the same file system (the same
    directories, the same files with the same content) and print the same
    lines, whatever the pattern of line 380 is. *)
Theorem redis_and_monitoring_change_nothing (h : host) (p : RegExp.pattern) (w : World)
    (c1 c2 : ProjectConfig) :
  same_but_redis_monitoring c1 c2 ->
  let generate := (createProjectStructure h ;; processTemplateFiles h p)%js in
  let r1 := generate (with_config c1 w) in
  let r2 := generate (with_config c2 w) in
  fst r2 = fst r1
  /\ dirs (fs (snd r2)) = dirs (fs (snd r1))
  /\ files (fs (snd r2)) = files (fs (snd r1))
  /\ console (snd r2) = console (snd r1).
Proof.
  intros Hsame generate r1 r2.
  assert (blind generate) as Hb.
  { apply blind_bind; [apply blind_createProjectStructure|].
    intros _. apply blind_processTemplateFiles. }
  assert (with_config c2 w
          = reflag_world (f_redis (features c2)) (f_monitoring (features c2))
              (with_config c1 w)) as Hw.
  { unfold reflag_world. cbn [projectConfig with_config stdin console fs rl_closed].
    rewrite <- (same_but_reflag c1 c2 Hsame). reflexivity. }
  subst r1 r2. rewrite Hw, Hb. cbn [fst snd].
  repeat split; reflexivity.
Qed.

(** ** The scenario, run *)

Example toLowerCase_N : toLowerCase "N" = "n".
Proof. reflexivity. Qed.

Example replace_every_occurrence :
  RegExp.replace (RegExp.literal "ab") "x" "abcabab" = "xcxx".
Proof. reflexivity. Qed.

Example replace_expands_dollar :
  RegExp.replace (RegExp.literal "ab") "[$&$$]" "cabd" = "c[ab$]d".
Proof. reflexivity. Qed.

Example replace_at_end_of_input :
  RegExp.replace [RegExp.EndOfInput] "!" "ab" = "ab!".
Proof. reflexivity. Qed.

Example stringify_nested :
  stringify (JObj [("name", JStr "a"); ("bugs", JObj [("url", JStr "u")]); ("files", JArr [])])
  = lines ["{";
           "  " +:+ dquote +:+ "name" +:+ dquote +:+ ": " +:+ dquote +:+ "a" +:+ dquote +:+ ",";
           "  " +:+ dquote +:+ "bugs" +:+ dquote +:+ ": {";
           "    " +:+ dquote +:+ "url" +:+ dquote +:+ ": " +:+ dquote +:+ "u" +:+ dquote;
           "  },";
           "  " +:+ dquote +:+ "files" +:+ dquote +:+ ": []";
           "}"].
Proof. reflexivity. Qed.

Example collected_demo : collected demo_answers initialConfig = demo.
Proof. reflexivity. Qed.

(** The scenario with every template in place: the directories of both
    optional features are there, and the manifest is the one of the
    scenario. *)
Example scenario_artifacts :
  let r := preparation (sample_host EmptyString) sample_pattern
             (sample_world initialConfig (typed demo_answers) sample_files) in
  fst r = Ok tt
  /\ "nginx" ∈ dirs (fs (snd r))
  /\ ".github/workflows" ∈ dirs (fs (snd r))
  /\ files (fs (snd r)) !! "package.json" = Some (stringify (generated demo sample_manifest))
  /\ files (fs (snd r)) !! "docker-compose.dev.yml" = Some sample_compose_dev.
Proof.
  vm_compute. repeat split; reflexivity.
Qed.

(** Line 337 is read as a literal with the flag [g]; its body is the
    pattern [project_name_pattern] stands for. *)
Example line_337_is_a_literal :
  regex_literal line_337 = inr ("\\$\\{PROJECT_NAME:-app\\}", "g").
Proof. reflexivity. Qed.

(** The scenario on a host whose installer fails: the script is rejected
    before the installer, or anything else, is run. *)
Example installer_is_not_reached :
  run_script (main installer_fails sample_pattern) scenario_world
  = (Exited 1, scenario_world).
Proof. reflexivity. Qed.

(** The last steps by themselves on that host: the failure of the
    installer is caught and logged, the version-control step runs, and the
    summary is printed. *)
Example installer_failure_is_caught :
  let r := completion installer_fails (sample_world demo [] sample_files) in
  fst r = Ok tt
  /\ In (Err "  ❌ Failed to install dependencies: Command failed: npm install")
        (console (snd r))
  /\ In (Out "  ℹ️  You can install them manually later with: npm install") (console (snd r))
  /\ In (Out "  ✅ Git repository initialized") (console (snd r))
  /\ hd_error (console (snd r)) = Some (Out "Happy coding! 🚀").
Proof.
  vm_compute. repeat split; auto 60.
Qed.


Lemma redis_and_monitoring_change_nothing_witness :
  let h := sample_host EmptyString in
  let w := sample_world initialConfig [] sample_files in
  let generate := (createProjectStructure h ;; processTemplateFiles h sample_pattern)%js in
  let r1 := generate (with_config demo w) in
  let r2 := generate (with_config (set_features (set_monitoring false)
                                     (set_features (set_redis true) demo)) w) in
  fst r2 = fst r1
  /\ dirs (fs (snd r2)) = dirs (fs (snd r1))
  /\ files (fs (snd r2)) = files (fs (snd r1))
  /\ console (snd r2) = console (snd r1).
Proof.
  intros h w.
  apply (redis_and_monitoring_change_nothing h sample_pattern w demo).
  repeat split; reflexivity.
Defined.

(** ** The collector, further *)

Lemma quiet_ret {A} (a : A) : quiet (ret a).
Proof. intros w. repeat split; intros; discriminate. Qed.

Lemma quiet_bind {A B} (m : M A) (k : A -> M B) :
  quiet m -> (forall a, quiet (k a)) -> quiet (bind m k).
Proof.
  intros Hm Hk w. unfold bind. destruct (Hm w) as (Hf & Hr & Ht).
  destruct (m w) as [[a|e|] w1]; cbn [fst snd] in *.
  - destruct (Hk a w1) as (Hf' & Hr' & Ht'). rewrite Hf', Hr'. auto.
  - exfalso. apply (Ht e). reflexivity.
  - repeat split; auto; intros; discriminate.
Qed.

Lemma quiet_console_log (text : string) : quiet (console_log text).
Proof. intros w. repeat split; intros; discriminate. Qed.

Lemma quiet_question (prompt : string) : quiet (question prompt).
Proof.
  intros w. unfold question. destruct (stdin w); repeat split; intros; discriminate.
Qed.

Lemma quiet_update_config (g : ProjectConfig -> ProjectConfig) : quiet (update_config g).
Proof. intros w. repeat split; intros; discriminate. Qed.

Lemma quiet_get_config : quiet get_config.
Proof. intros w. repeat split; intros; discriminate. Qed.

Lemma quiet_if {A} (b : bool) (m1 m2 : M A) : quiet m1 -> quiet m2 -> quiet (if b then m1 else m2).
Proof. destruct b; auto. Qed.

Ltac quiet_all :=
  repeat first
    [ apply quiet_ret
    | apply quiet_console_log
    | apply quiet_question
    | apply quiet_update_config
    | apply quiet_get_config
    | apply quiet_if
    | apply quiet_bind; [|intros ?] ].

Lemma quiet_showWelcome : quiet showWelcome.
Proof. unfold showWelcome. quiet_all. Qed.

Lemma quiet_collectProjectInfo : quiet collectProjectInfo.
Proof. unfold collectProjectInfo. quiet_all. Qed.

(** X1.  What the collector makes of the lines: name, author, email and
    GitHub username are taken as typed; an empty description becomes the
    name followed by the fixed phrase; an empty Docker Hub username becomes
    the GitHub username; an empty database type becomes [postgresql] and any
    other is taken as typed. *)
Theorem collector_defaults (a : Answers) (rest : list string) (w : World) :
  let w' := snd (collectProjectInfo (with_stdin (typed a ++ rest) w)) in
  let c := projectConfig w' in
  name c = a_name a
  /\ author c = a_author a
  /\ email c = a_email a
  /\ githubUsername c = a_github a
  /\ description c
     = (if String.eqb (a_description a) EmptyString
        then a_name a +:+ " - A Node.js API with DevOps practices"
        else a_description a)
  /\ dockerUsername c
     = (if String.eqb (a_dockerhub a) EmptyString then a_github a else a_dockerhub a)
  /\ (f_database (features c) = true ->
      database c
      = (if String.eqb (a_dbType a) EmptyString then "postgresql" else a_dbType a)).
Proof.
  intros w' c. subst c w'. rewrite collectProjectInfo_run.
  cbn [snd projectConfig stdin collected name author email githubUsername description
       dockerUsername database features f_database].
  repeat split.
  - destruct (a_description a); reflexivity.
  - destruct (a_dockerhub a); reflexivity.
  - intros ->. destruct (a_dbType a); reflexivity.
Qed.

(** X2.  Whatever the input, the collector does not throw and changes
    neither the file system nor the state of the line reader: it returns,
    or waits for a line. *)
Theorem collector_touches_nothing (input : list string) (w : World) :
  let r := collectProjectInfo (with_stdin input w) in
  fs (snd r) = fs w
  /\ rl_closed (snd r) = rl_closed w
  /\ (fst r = Ok tt \/ fst r = Pending).
Proof.
  intros r. subst r.
  destruct (quiet_collectProjectInfo (with_stdin input w)) as (Hf & Hr & Ht).
  split; [exact Hf|]. split; [exact Hr|].
  destruct (fst (collectProjectInfo (with_stdin input w))) as [[]|e|]; auto.
  exfalso. apply (Ht e). reflexivity.
Qed.

Ltac left_waiting :=
  lazy -[not_n is_y or_else String.append length];
  split; [reflexivity | eexists _, _; reflexivity].

(** X3.  The collector asks eleven questions at least: with ten answers
    or fewer it does not return.  It is left waiting for a line, and the
    last thing on the console is the question it waits on. *)
Theorem collector_needs_eleven_answers (input : list string) (w : World) :
  length input <= 10 ->
  fst (collectProjectInfo (with_stdin input w)) = Pending
  /\ exists asked before,
      console (snd (collectProjectInfo (with_stdin input w))) = Prompt asked :: before.
Proof.
  destruct w as [c0 i0 o0 f0 r0]. intros Hlen.
  do 9 (destruct input as [|? input]; [left_waiting|]).
  lazy -[not_n is_y or_else String.append length].
  match goal with |- context [not_n ?x] => destruct (not_n x) end.
  - do 2 (destruct input as [|? input]; [left_waiting|]).
    simpl in Hlen. lia.
  - do 2 (destruct input as [|? input]; [left_waiting|]).
    simpl in Hlen. lia.
Qed.

Lemma collector_needs_eleven_answers_witness :
  fst (collectProjectInfo
         (with_stdin ["demo"; "a demo"] (sample_world initialConfig [] sample_files)))
  = Pending
  /\ exists asked before,
      console (snd (collectProjectInfo
                      (with_stdin ["demo"; "a demo"]
                         (sample_world initialConfig [] sample_files))))
      = Prompt asked :: before.
Proof.
  apply (collector_needs_eleven_answers ["demo"; "a demo"]
           (sample_world initialConfig [] sample_files)).
  cbn. lia.
Defined.

(** ** The package manifest, further *)

Lemma on_member_object (k : string) (op : option json -> string + json)
    (ms : list (string * json)) :
  on_member k op (JObj ms)
  = sum_bind (op (members_get k ms)) (fun v' => inr (JObj (members_set k v' ms))).
Proof. reflexivity. Qed.

Lemma is_inr_set {B} (m : string) (u : json) (v : option json) (k : json -> string + B) :
  is_inr (sum_bind (Json.set m u v) k) = settable v && is_inr (k (set_in m u v)).
Proof. destruct v as [[]|]; reflexivity. Qed.

Lemma is_inr_delete {B} (m : string) (v : option json) (k : json -> string + B) :
  is_inr (sum_bind (Json.delete m v) k) = deletable v && is_inr (k (delete_in m v)).
Proof. destruct v as [[]|]; reflexivity. Qed.

Lemma deletable_delete_in (m : string) (v : option json) :
  deletable v = true -> deletable (Some (delete_in m v)) = true.
Proof. destruct v as [[]|]; intros H; try discriminate H; reflexivity. Qed.

Lemma is_inr_true {A B} (x : A + B) : is_inr x = true <-> exists b, x = inr b.
Proof.
  destruct x; cbn; split; eauto; try discriminate. intros [b H]. discriminate H.
Qed.

Lemma is_inr_on_member_delete (k m : string) (ms : list (string * json))
    (rest : json -> string + json) :
  is_inr (sum_bind (on_member k (Json.delete m) (JObj ms)) rest)
  = deletable (members_get k ms)
    && is_inr (rest (JObj (members_set k (delete_in m (members_get k ms)) ms))).
Proof.
  rewrite on_member_object. destruct (members_get k ms) as [[]|]; reflexivity.
Qed.

Lemma is_inr_on_member_set (k m : string) (u : json) (ms : list (string * json))
    (rest : json -> string + json) :
  is_inr (sum_bind (on_member k (Json.set m u) (JObj ms)) rest)
  = settable (members_get k ms)
    && is_inr (rest (JObj (members_set k (set_in m u (members_get k ms)) ms))).
Proof.
  rewrite on_member_object. destruct (members_get k ms) as [[]|]; reflexivity.
Qed.

Lemma is_inr_last_delete (k m : string) (ms : list (string * json)) :
  is_inr (on_member k (Json.delete m) (JObj ms)) = deletable (members_get k ms).
Proof.
  rewrite on_member_object. destruct (members_get k ms) as [[]|]; reflexivity.
Qed.

Lemma packageJson_object (cfg : ProjectConfig) (ms : list (string * json)) :
  is_inr (packageJson cfg (JObj ms))
  = settable (members_get "repository" ms)
    && settable (members_get "bugs" ms)
    && (f_database (features cfg)
        || deletable (members_get "dependencies" ms)
           && deletable (members_get "devDependencies" ms)
           && deletable (members_get "scripts" ms)).
Proof.
  unfold packageJson. cbn [Json.set sum_bind].
  rewrite is_inr_on_member_set.
  rewrite !members_get_set_ne by discriminate.
  destruct (settable (members_get "repository" ms)); [|reflexivity].
  rewrite is_inr_on_member_set.
  rewrite !members_get_set_ne by discriminate.
  destruct (settable (members_get "bugs" ms)); [|reflexivity].
  cbn [Json.set sum_bind andb].
  destruct (f_database (features cfg)); [reflexivity|].
  cbn [negb orb].
  rewrite is_inr_on_member_delete.
  rewrite !members_get_set_ne by discriminate.
  destruct (deletable (members_get "dependencies" ms)) eqn:Hd; [|reflexivity].
  rewrite is_inr_on_member_delete.
  rewrite members_get_set_eq, deletable_delete_in by exact Hd.
  rewrite is_inr_on_member_delete.
  rewrite !members_get_set_ne by discriminate.
  destruct (deletable (members_get "devDependencies" ms)); [|reflexivity].
  rewrite is_inr_on_member_delete.
  rewrite !members_get_set_ne by discriminate.
  destruct (deletable (members_get "scripts" ms)) eqn:Hs; [|reflexivity].
  rewrite is_inr_on_member_delete.
  rewrite members_get_set_eq, deletable_delete_in by exact Hs.
  rewrite is_inr_last_delete.
  rewrite members_get_set_eq.
  cbn [andb]. apply deletable_delete_in, deletable_delete_in, Hs.
Qed.

(** X5.  The manifest is generated exactly when the template is an object
    whose [repository] and [bugs] members are objects (or arrays) and, when
    the database flag is off, whose [dependencies], [devDependencies] and
    [scripts] members are there and not [null]; otherwise the step throws a
    [TypeError]. *)
Theorem manifest_generated_iff (cfg : ProjectConfig) (tpl : json) :
  (exists pkg, packageJson cfg tpl = inr pkg)
  <-> exists ms,
      tpl = JObj ms
      /\ settable (members_get "repository" ms) = true
      /\ settable (members_get "bugs" ms) = true
      /\ (f_database (features cfg) = true
          \/ deletable (members_get "dependencies" ms) = true
             /\ deletable (members_get "devDependencies" ms) = true
             /\ deletable (members_get "scripts" ms) = true).
Proof.
  rewrite <- is_inr_true. split.
  - intros H. destruct tpl as [| | | | |ms]; try discriminate H.
    exists ms. split; [reflexivity|].
    rewrite packageJson_object in H.
    apply andb_true_iff in H as [H H3]. apply andb_true_iff in H as [H1 H2].
    split; [exact H1|]. split; [exact H2|].
    apply orb_true_iff in H3 as [H3|H3]; [left; exact H3|right].
    apply andb_true_iff in H3 as [H3 H5]. apply andb_true_iff in H3 as [H3 H4]. auto.
  - intros (ms & -> & H1 & H2 & H3). rewrite packageJson_object, H1, H2.
    destruct H3 as [-> | (-> & -> & ->)]; [reflexivity|].
    apply orb_true_r.
Qed.

Lemma set_hit_object (k : string) (v p p' : json) :
  Json.set k v (Some p) = inr p' -> is_object p = is_object p'.
Proof.
  intros H. destruct p; cbn in H; try discriminate H; injection H as <-; reflexivity.
Qed.

Lemma packageJson_fields_enabled (cfg : ProjectConfig) (tpl pkg : json) :
  packageJson (enable_database cfg) tpl = inr pkg ->
  get_path ["name"] pkg = Some (JStr (name cfg))
  /\ get_path ["description"] pkg = Some (JStr (description cfg))
  /\ get_path ["author"] pkg = Some (JStr (author cfg +:+ " <" +:+ email cfg +:+ ">"))
  /\ forall b, get_path ["bugs"] tpl = Some (JObj b) ->
               get_path ["bugs"; "url"] pkg = Some (JStr (github_url cfg +:+ "/issues")).
Proof.
  unfold packageJson. intros H.
  apply sum_bind_inr in H as (p1 & H1 & H).
  apply sum_bind_inr in H as (p2 & H2 & H).
  apply sum_bind_inr in H as (p3 & H3 & H).
  apply sum_bind_inr in H as (p4 & H4 & H).
  apply sum_bind_inr in H as (p5 & H5 & H).
  apply sum_bind_inr in H as (p6 & H6 & H).
  cbn [enable_database set_features features f_database set_db negb] in H.
  injection H as <-.
  change (github_url (enable_database cfg)) with (github_url cfg) in *.
  change (name (enable_database cfg)) with (name cfg) in *.
  change (description (enable_database cfg)) with (description cfg) in *.
  change (author (enable_database cfg)) with (author cfg) in *.
  change (email (enable_database cfg)) with (email cfg) in *.
  pose proof (on_member_set _ _ _ _ _ H4) as [Ho3 _].
  pose proof (on_member_set _ _ _ _ _ H5) as [_ Hbugs].
  assert (is_object p2 = true) as Ho2 by (rewrite (set_hit_object _ _ _ _ H3); exact Ho3).
  assert (is_object p1 = true) as Ho1 by (rewrite (set_hit_object _ _ _ _ H2); exact Ho2).
  assert (is_object tpl = true) as Ho0 by (rewrite (set_hit_object _ _ _ _ H1); exact Ho1).
  split; [|split; [|split]].
  - rewrite (set_frame _ _ _ _ _ H6) by discriminate.
    rewrite (on_member_frame _ _ _ _ _ H5) by discriminate.
    rewrite (on_member_frame _ _ _ _ _ H4) by discriminate.
    rewrite (set_frame _ _ _ _ _ H3) by discriminate.
    rewrite (set_frame _ _ _ _ _ H2) by discriminate.
    apply (set_hit _ _ _ _ H1 Ho0).
  - rewrite (set_frame _ _ _ _ _ H6) by discriminate.
    rewrite (on_member_frame _ _ _ _ _ H5) by discriminate.
    rewrite (on_member_frame _ _ _ _ _ H4) by discriminate.
    rewrite (set_frame _ _ _ _ _ H3) by discriminate.
    apply (set_hit _ _ _ _ H2 Ho1).
  - rewrite (set_frame _ _ _ _ _ H6) by discriminate.
    rewrite (on_member_frame _ _ _ _ _ H5) by discriminate.
    rewrite (on_member_frame _ _ _ _ _ H4) by discriminate.
    apply (set_hit _ _ _ _ H3 Ho2).
  - intros b Hb. rewrite get_path_cons.
    rewrite (set_frame _ _ _ _ _ H6) by discriminate.
    rewrite <- get_path_cons. apply (Hbugs b).
    rewrite (on_member_frame _ _ _ _ _ H4) by discriminate.
    rewrite (set_frame _ _ _ _ _ H3) by discriminate.
    rewrite (set_frame _ _ _ _ _ H2) by discriminate.
    rewrite (set_frame _ _ _ _ _ H1) by discriminate.
    exact Hb.
Qed.

(** X4.  In every generated manifest the name and the description are
    the configured ones and the author is [author <email>], with the
    database flag on or off; when the template's [bugs] member is an
    object, its URL is [https://github.com/{githubUsername}/{name}/issues]. *)
Theorem manifest_identity_fields (cfg : ProjectConfig) (tpl pkg : json) :
  packageJson cfg tpl = inr pkg ->
  get_path ["name"] pkg = Some (JStr (name cfg))
  /\ get_path ["description"] pkg = Some (JStr (description cfg))
  /\ get_path ["author"] pkg = Some (JStr (author cfg +:+ " <" +:+ email cfg +:+ ">"))
  /\ forall b,
      get_path ["bugs"] tpl = Some (JObj b) ->
      get_path ["bugs"; "url"] pkg
      = Some (JStr ("https://github.com/" +:+ githubUsername cfg +:+ "/" +:+ name cfg
                      +:+ "/issues")).
Proof.
  intros H. apply packageJson_inr in H as (pkg' & H' & _ & Hk).
  apply packageJson_fields_enabled in H' as (Hn & Hd & Ha & Hu).
  assert (forall k, In k ["name"; "description"; "author"; "bugs"] ->
                    get_path [k] pkg = get_path [k] pkg') as Hsame.
  { intros k Hin. rewrite Hk.
    assert ((if f_database (features cfg) then [] else removed_from k) = []) as ->.
    { destruct (f_database (features cfg)); [reflexivity|].
      cbn in Hin. destruct Hin as [<-|[<-|[<-|[<-|[]]]]]; reflexivity. }
    destruct (get_path [k] pkg'); cbn; [rewrite without_nil|]; reflexivity. }
  rewrite (Hsame "name"), (Hsame "description"), (Hsame "author") by (cbn; auto).
  split; [exact Hn|]. split; [exact Hd|]. split; [exact Ha|].
  intros b Hb.
  rewrite get_path_cons, (Hsame "bugs") by (cbn; auto). rewrite <- get_path_cons.
  rewrite (Hu b Hb). unfold github_url. rewrite !string_app_assoc. reflexivity.
Qed.

(** The scenario without the database; and a template whose [repository]
    member is an array, where the name is set all the same. *)
Lemma manifest_identity_fields_witness :
  (get_path ["name"] (generated demo_without_database sample_manifest) = Some (JStr "demo")
   /\ get_path ["description"] (generated demo_without_database sample_manifest)
      = Some (JStr "demo - A Node.js API with DevOps practices")
   /\ get_path ["author"] (generated demo_without_database sample_manifest)
      = Some (JStr "Alice <alice@example.com>")
   /\ get_path ["bugs"; "url"] (generated demo_without_database sample_manifest)
      = Some (JStr "https://github.com/alice/demo/issues"))
  /\ get_path ["name"] (generated demo repository_as_array) = Some (JStr "demo").
Proof.
  destruct (manifest_identity_fields demo_without_database sample_manifest
              (generated demo_without_database sample_manifest) eq_refl)
    as (Hn & Hd & Ha & Hu).
  split.
  - split; [exact Hn|]. split; [exact Hd|]. split; [exact Ha|].
    exact (Hu [("url", JStr "https://github.com/your-username/your-app-name/issues")]
              eq_refl).
  - apply (manifest_identity_fields demo repository_as_array
             (generated demo repository_as_array) eq_refl).
Defined.

Lemma substring_whole (s : string) : substring 0 (String.length s) s = s.
Proof. induction s as [|c s IH]; [reflexivity|]. cbn. now rewrite IH. Qed.

Lemma begins_itself (s : string) : begins s s.
Proof. exists (String.length s). symmetry. apply substring_whole. Qed.

(** X6.  When [processPackageJson] throws, nothing has been printed, the
    configuration and the directories are as they were, and no file but
    [package.json] has changed.  [package.json] itself has changed only
    when the manifest was generated and writing it failed after the file
    was opened: it then holds a beginning of the manifest's text. *)
Theorem manifest_failure_touches_one_file (h : host) (w w' : World) (e : string) :
  processPackageJson h w = (Throw e, w') ->
  console w' = console w
  /\ projectConfig w' = projectConfig w
  /\ dirs (fs w') = dirs (fs w)
  /\ (forall p, p <> "package.json" -> files (fs w') !! p = files (fs w) !! p)
  /\ (files (fs w') !! "package.json" <> files (fs w) !! "package.json" ->
      exists text tpl pkg left,
        files (fs w) !! path_join [templateDir h; "config"; "package.json"] = Some text
        /\ JSON_parse h text = inr tpl
        /\ packageJson (projectConfig w) tpl = inr pkg
        /\ files (fs w') !! "package.json" = Some left
        /\ begins left (stringify pkg)).
Proof.
  unfold processPackageJson, bind, readFile, writeFile, lift, get_config, console_log,
    throw, ret.
  intros H.
  destruct (fs_fault h (fs w) (ReadFile _));
    [injection H as _ <-; repeat split; congruence|].
  destruct (files (fs w) !! _) as [text|] eqn:Ht;
    [|injection H as _ <-; repeat split; congruence].
  destruct (JSON_parse h text) as [e1|tpl] eqn:Hp;
    [injection H as _ <-; repeat split; congruence|].
  destruct (packageJson (projectConfig w) tpl) as [e2|pkg] eqn:Hj;
    [injection H as _ <-; repeat split; congruence|].
  destruct (fs_fault h (fs w) (WriteFile _)); [|discriminate H].
  injection H as _ <-. unfold after_failed_write.
  destruct (written_before_fault h (fs w) "package.json" (stringify pkg)) as [n|];
    cbn [with_fs fs files dirs console projectConfig];
    [|repeat split; congruence].
  split; [reflexivity|]. split; [reflexivity|]. split; [reflexivity|]. split.
  - intros p Hne. apply lookup_insert_ne. congruence.
  - intros _. exists text, tpl, pkg, (substring 0 n (stringify pkg)).
    split; [reflexivity|]. split; [exact Hp|]. split; [exact Hj|].
    split; [apply lookup_insert_eq|]. exists n. reflexivity.
Qed.

Lemma manifest_failure_touches_one_file_witness :
  let w := sample_world demo [] sample_files in
  console torn_manifest_world = console w
  /\ projectConfig torn_manifest_world = projectConfig w
  /\ dirs (fs torn_manifest_world) = dirs (fs w)
  /\ (forall p, p <> "package.json" ->
                files (fs torn_manifest_world) !! p = files (fs w) !! p)
  /\ (files (fs torn_manifest_world) !! "package.json" <> files (fs w) !! "package.json" ->
      exists text tpl pkg left,
        files (fs w)
          !! path_join [templateDir (full_disk_host "package.json" 2); "config";
                        "package.json"]
        = Some text
        /\ JSON_parse (full_disk_host "package.json" 2) text = inr tpl
        /\ packageJson (projectConfig w) tpl = inr pkg
        /\ files (fs torn_manifest_world) !! "package.json" = Some left
        /\ begins left (stringify pkg)).
Proof.
  intros w.
  apply (manifest_failure_touches_one_file (full_disk_host "package.json" 2) w
           torn_manifest_world no_space).
  vm_compute. exact (eq_refl (Throw no_space, torn_manifest_world)).
Defined.

(** ** What the steps write, and what they leave alone *)

Lemma after_failed_write_dirs (h : host) (path text : string) (f : FileSystem) :
  dirs (after_failed_write h path text f) = dirs f.
Proof.
  unfold after_failed_write. destruct (written_before_fault h f path text); reflexivity.
Qed.

Lemma after_failed_write_others (h : host) (path text p : string) (f : FileSystem) :
  p <> path -> files (after_failed_write h path text f) !! p = files f !! p.
Proof.
  intros Hne. unfold after_failed_write.
  destruct (written_before_fault h f path text); [|reflexivity].
  cbn. apply lookup_insert_ne. congruence.
Qed.

Section Confined.

Context (h : host) (c : ProjectConfig) (paths : list string).

Lemma confined_ret {A} (a : A) : confined c paths (ret a).
Proof. intros w Hc. auto. Qed.

Lemma confined_lift {A} (x : string + A) : confined c paths (lift x).
Proof. destruct x; intros w Hc; auto. Qed.

Lemma confined_console_log (text : string) : confined c paths (console_log text).
Proof. intros w Hc. auto. Qed.

Lemma confined_bind {A B} (m : M A) (k : A -> M B) :
  confined c paths m -> (forall a, confined c paths (k a)) -> confined c paths (bind m k).
Proof.
  intros Hm Hk w Hc. unfold bind. destruct (Hm w Hc) as (H1 & H2 & H3).
  destruct (m w) as [[a|e|] w1]; cbn [fst snd] in *; auto.
  destruct (Hk a w1 H1) as (K1 & K2 & K3). split; [exact K1|]. split; [congruence|].
  intros p Hp. rewrite K3, H3 by exact Hp. reflexivity.
Qed.

Lemma confined_get_config {B} (k : ProjectConfig -> M B) :
  confined c paths (k c) -> confined c paths (bind get_config k).
Proof. intros Hk w Hc. unfold bind, get_config. rewrite Hc. apply Hk, Hc. Qed.

Lemma confined_readFile (path : string) : confined c paths (readFile h path).
Proof.
  intros w Hc. unfold readFile. destruct (fs_fault h (fs w) (ReadFile path)); [auto|].
  destruct (files (fs w) !! path); auto.
Qed.

Lemma confined_writeFile (path text : string) :
  In path paths -> confined c paths (writeFile h path text).
Proof.
  intros Hin w Hc. unfold writeFile.
  destruct (fs_fault h (fs w) (WriteFile path)).
  - cbn. split; [exact Hc|]. split; [apply after_failed_write_dirs|].
    intros p Hp. apply after_failed_write_others. intros ->. contradiction.
  - cbn. split; [exact Hc|]. split; [reflexivity|].
    intros p Hp. apply lookup_insert_ne. intros ->. contradiction.
Qed.

Lemma confined_copyFile (src dest : string) :
  In dest paths -> confined c paths (copyFile h src dest).
Proof.
  intros Hin w Hc. unfold copyFile.
  destruct (fs_fault h (fs w) (CopyFile src dest)); [auto|].
  destruct (files (fs w) !! src); [|auto].
  cbn. split; [exact Hc|]. split; [reflexivity|].
  intros p Hp. apply lookup_insert_ne. intros ->. contradiction.
Qed.

End Confined.

Ltac listed := cbn; repeat first [left; reflexivity | right].

Ltac confined_step :=
  first
    [ apply confined_ret
    | apply confined_console_log
    | apply confined_lift
    | apply confined_readFile
    | apply confined_writeFile; listed
    | apply confined_copyFile; listed
    | apply confined_get_config; cbn [features f_docker f_cicd]
    | apply confined_bind; [|intros ?] ].

Lemma confined_processTemplateFiles (h : host) (image_pattern : RegExp.pattern)
    (c : ProjectConfig) :
  confined c (files_for c) (processTemplateFiles h image_pattern).
Proof.
  destruct c as [nm de au em du gu db [fd fc fdb fr fm]].
  unfold files_for, always_files, docker_files, workflow_files.
  unfold processTemplateFiles, processPackageJson, processEnvFiles, processDockerFiles,
    processCICDFiles, createBaseCodeFiles, createConfigFiles, workflows.
  cbn [for_of features f_docker f_cicd].
  destruct fd, fc; cbn [app]; repeat confined_step.
Qed.

(** X7.  However it ends, the materializer changes no file but the ones
    it is to write for the configuration: the seven it always writes, the
    four docker files only with the docker flag, the three workflow files
    only with the cicd flag.  It creates no directory and leaves the
    configuration as it is.  This holds whatever the pattern of line 380
    is. *)
Theorem materializer_writes_only_its_files (h : host) (p : RegExp.pattern) (w : World) :
  let w' := snd (processTemplateFiles h p w) in
  projectConfig w' = projectConfig w
  /\ dirs (fs w') = dirs (fs w)
  /\ forall path, ~ In path (files_for (projectConfig w)) ->
                  files (fs w') !! path = files (fs w) !! path.
Proof.
  intros w'. apply (confined_processTemplateFiles h p (projectConfig w) w). reflexivity.
Qed.

Section Ensures.

Context (h : host) (c : ProjectConfig).

Lemma ensures_ret {A} (a : A) : ensures c [] (ret a).
Proof.
  intros w a' w' Hc H. injection H as _ <-. split; [exact Hc|]. split; [auto|].
  intros p [].
Qed.

Lemma ensures_lift {A} (x : string + A) : ensures c [] (lift x).
Proof.
  destruct x; [intros w a' w' Hc H; discriminate H | apply ensures_ret].
Qed.

Lemma ensures_console_log (text : string) : ensures c [] (console_log text).
Proof.
  intros w a' w' Hc H. injection H as _ <-. split; [exact Hc|]. split; [auto|].
  intros p [].
Qed.

Lemma ensures_readFile (path : string) : ensures c [] (readFile h path).
Proof.
  intros w a' w' Hc. unfold readFile.
  destruct (fs_fault h (fs w) (ReadFile path)); [discriminate|].
  destruct (files (fs w) !! path); [|discriminate].
  intros H. injection H as _ <-. split; [exact Hc|]. split; [auto|]. intros p [].
Qed.

Lemma ensures_writeFile (path text : string) : ensures c [path] (writeFile h path text).
Proof.
  intros w a' w' Hc. unfold writeFile.
  destruct (fs_fault h (fs w) (WriteFile path)); [discriminate|].
  intros H. injection H as _ <-. cbn. split; [exact Hc|]. split.
  - intros p Hp. destruct (decide (path = p)) as [->|Hne].
    + rewrite lookup_insert_eq. eauto.
    + rewrite lookup_insert_ne by exact Hne. exact Hp.
  - intros p [<-|[]]. rewrite lookup_insert_eq. eauto.
Qed.

Lemma ensures_copyFile (src dest : string) : ensures c [dest] (copyFile h src dest).
Proof.
  intros w a' w' Hc. unfold copyFile.
  destruct (fs_fault h (fs w) (CopyFile src dest)); [discriminate|].
  destruct (files (fs w) !! src); [|discriminate].
  intros H. injection H as _ <-. cbn. split; [exact Hc|]. split.
  - intros p Hp. destruct (decide (dest = p)) as [->|Hne].
    + rewrite lookup_insert_eq. eauto.
    + rewrite lookup_insert_ne by exact Hne. exact Hp.
  - intros p [<-|[]]. rewrite lookup_insert_eq. eauto.
Qed.

Lemma ensures_bind {A B} (p1 p2 : list string) (m : M A) (k : A -> M B) :
  ensures c p1 m -> (forall a, ensures c p2 (k a)) -> ensures c (p1 ++ p2) (bind m k).
Proof.
  intros Hm Hk w b w' Hc. unfold bind.
  destruct (m w) as [[a|e|] w1] eqn:Hw; try discriminate.
  intros H. destruct (Hm w a w1 Hc Hw) as (H1 & H2 & H3).
  destruct (Hk a w1 b w' H1 H) as (K1 & K2 & K3).
  split; [exact K1|]. split; [auto|].
  intros p Hp. apply in_app_or in Hp as [Hp|Hp]; auto.
Qed.

Lemma ensures_get_config {B} (paths : list string) (k : ProjectConfig -> M B) :
  ensures c paths (k c) -> ensures c paths (bind get_config k).
Proof.
  intros Hk w b w' Hc. unfold bind, get_config. rewrite Hc. apply Hk, Hc.
Qed.

End Ensures.

Ltac ensures_step :=
  first
    [ eapply ensures_ret
    | eapply ensures_console_log
    | eapply ensures_lift
    | eapply ensures_readFile
    | eapply ensures_writeFile
    | eapply ensures_copyFile
    | eapply ensures_get_config; cbn [features f_docker f_cicd]
    | eapply ensures_bind; [|intros ?] ].

Lemma ensures_weaken {A} (c : ProjectConfig) (p1 p2 : list string) (m : M A) :
  ensures c p1 m -> (forall p, In p p2 -> In p p1) -> ensures c p2 m.
Proof.
  intros Hm Hsub w a w' Hc H. destruct (Hm w a w' Hc H) as (H1 & H2 & H3). auto.
Qed.

Lemma ensures_processTemplateFiles (h : host) (image_pattern : RegExp.pattern)
    (c : ProjectConfig) :
  ensures c (files_for c) (processTemplateFiles h image_pattern).
Proof.
  destruct c as [nm de au em du gu db [fd fc fdb fr fm]].
  unfold files_for, always_files, docker_files, workflow_files.
  unfold processTemplateFiles, processPackageJson, processEnvFiles, processDockerFiles,
    processCICDFiles, createBaseCodeFiles, createConfigFiles, workflows.
  cbn [for_of features f_docker f_cicd].
  destruct fd, fc; cbn [app];
    (eapply ensures_weaken; [repeat ensures_step|]);
    cbn; intros p Hp; intuition (subst; auto 30).
Qed.

(** X8.  When the materializer returns, every file it is to write for the
    configuration is there, and so is every file that was there before,
    whatever the pattern of line 380 is. *)
Theorem materializer_writes_all_its_files (h : host) (p : RegExp.pattern) (w w' : World) :
  processTemplateFiles h p w = (Ok tt, w') ->
  (forall path, In path (files_for (projectConfig w)) -> is_Some (files (fs w') !! path))
  /\ forall path, is_Some (files (fs w) !! path) -> is_Some (files (fs w') !! path).
Proof.
  intros H.
  destruct (ensures_processTemplateFiles h p (projectConfig w) w tt w' eq_refl H)
    as (_ & H2 & H3).
  auto.
Qed.

Lemma materializer_writes_all_its_files_witness :
  (forall p, In p (files_for (projectConfig (sample_world demo [] sample_files))) ->
             is_Some (files (fs materialized_world) !! p))
  /\ forall p, is_Some (files (fs (sample_world demo [] sample_files)) !! p) ->
               is_Some (files (fs materialized_world) !! p).
Proof.
  apply (materializer_writes_all_its_files (sample_host EmptyString) sample_pattern
           (sample_world demo [] sample_files) materialized_world).
  vm_compute. exact (eq_refl (Ok tt, materialized_world)).
Defined.

Section MakesOnly.

Context (h : host) (allowed : list string).

Lemma makes_only_ret {A} (a : A) : makes_only allowed (ret a).
Proof. intros w. cbn. auto. Qed.

Lemma makes_only_console_log (text : string) : makes_only allowed (console_log text).
Proof. intros w. cbn. auto. Qed.

Lemma makes_only_bind {A B} (m : M A) (k : A -> M B) :
  makes_only allowed m -> (forall a, makes_only allowed (k a)) ->
  makes_only allowed (bind m k).
Proof.
  intros Hm Hk w. unfold bind. destruct (Hm w) as (H1 & H2 & H3 & H4).
  destruct (m w) as [[a|e|] w1]; cbn [fst snd] in *; auto.
  destruct (Hk a w1) as (K1 & K2 & K3 & K4).
  split; [congruence|]. split; [congruence|]. split; [auto|].
  intros d Hd. destruct (K4 d Hd) as [Hd1|Hd1]; auto.
Qed.

Lemma makes_only_get_config {B} (k : ProjectConfig -> M B) :
  (forall c, makes_only allowed (k c)) -> makes_only allowed (bind get_config k).
Proof. intros Hk w. unfold bind, get_config. apply Hk. Qed.

Lemma makes_only_mkdir (path : string) :
  (forall d, In d (path_and_parents EmptyString path) -> In d allowed) ->
  makes_only allowed (mkdir h path).
Proof.
  intros Hin w. unfold mkdir. destruct (fs_fault h (fs w) (Mkdir path)); [cbn; auto|].
  cbn. split; [reflexivity|]. split; [reflexivity|]. split.
  - intros d Hd. apply elem_of_union. left. exact Hd.
  - intros d Hd. apply elem_of_union in Hd as [Hd|Hd]; [left; exact Hd|right].
    apply elem_of_list_to_set in Hd. apply list_elem_of_In in Hd. apply Hin, Hd.
Qed.

End MakesOnly.

Ltac parents_listed :=
  cbn; intros ? ?;
  repeat match goal with
         | H : _ \/ _ |- _ => destruct H as [H|H]
         | H : False |- _ => destruct H
         end;
  subst; listed.

Ltac makes_only_step :=
  first
    [ apply makes_only_ret
    | apply makes_only_console_log
    | apply makes_only_mkdir; parents_listed
    | apply makes_only_bind; [|intros ?] ].

Lemma makes_only_directories (h : host) (c : ProjectConfig) :
  makes_only (directories c)
    (for_of (directories c)
       (fun dir => mkdir h dir ;; console_log ("  ✅ Created: " +:+ dir +:+ "/"))%js).
Proof.
  unfold directories, base_directories.
  destruct (f_docker (features c)), (f_cicd (features c)); cbn [app for_of];
    repeat makes_only_step.
Qed.

(** X9.  However it ends, the structure builder writes no file and leaves
    the configuration as it is; the directories there were are still
    there, and every other directory there is now is one of its list for
    the configuration. *)
Theorem structure_builder_makes_only_its_directories (h : host) (w : World) :
  let w' := snd (createProjectStructure h w) in
  projectConfig w' = projectConfig w
  /\ files (fs w') = files (fs w)
  /\ (forall d, d ∈ dirs (fs w) -> d ∈ dirs (fs w'))
  /\ forall d, d ∈ dirs (fs w') ->
               d ∈ dirs (fs w) \/ In d (directories (projectConfig w)).
Proof.
  intros w'. subst w'.
  assert (createProjectStructure h w
          = for_of (directories (projectConfig w))
              (fun dir => mkdir h dir ;; console_log ("  ✅ Created: " +:+ dir +:+ "/"))%js
              (with_console
                 (Out "📁 Creating project structure..." :: Out EmptyString :: console w) w))
    as -> by reflexivity.
  exact (makes_only_directories h (projectConfig w)
           (with_console
              (Out "📁 Creating project structure..." :: Out EmptyString :: console w) w)).
Qed.

(** The directories of the list up to the first whose [mkdir] fails are
    made, and the loop stops there. *)
Lemma for_of_mkdir_stops (h : host) (made : list string) (d : string) (later : list string)
    (e : string) (f : FileSystem) (w : World) :
  made_in h made (fs w) = Some f ->
  fs_fault h f (Mkdir d) = Some e ->
  exists w',
    for_of (made ++ d :: later)
      (fun dir => mkdir h dir ;; console_log ("  ✅ Created: " +:+ dir +:+ "/"))%js w
    = (Throw e, w')
    /\ fs w' = f
    /\ (forall x, In x made -> x ∈ dirs (fs w'))
    /\ (forall x, x ∈ dirs (fs w) -> x ∈ dirs (fs w'))
    /\ printed (map created_line made) w w'.
Proof.
  revert w. induction made as [|x made IH]; intros w Hmade Hd.
  - cbn [made_in] in Hmade. injection Hmade as <-.
    cbn [app for_of]. unfold bind at 1. unfold bind at 1. unfold mkdir at 1. rewrite Hd.
    exists w. split; [reflexivity|]. split; [reflexivity|]. split; [intros ? []|].
    split; [auto|]. reflexivity.
  - cbn [made_in] in Hmade.
    cbn [app for_of]. unfold bind at 1. unfold bind at 1. unfold mkdir at 1.
    destruct (fs_fault h (fs w) (Mkdir x)); [discriminate Hmade|].
    unfold console_log at 1.
    match goal with
    | |- context [for_of _ _ ?w1] =>
        destruct (IH w1 Hmade Hd) as (w' & Hrun & Hfs & Hin & Hold & Hsaid)
    end.
    exists w'. split; [exact Hrun|]. split; [exact Hfs|].
    cbn [with_console with_fs fs dirs files console] in *.
    split; [|split].
    + intros y [<-|Hy]; [|auto]. apply Hold. apply elem_of_union. right.
      apply elem_of_list_to_set, list_elem_of_In.
      apply (path_among_its_parents EmptyString x).
    + intros y Hy. apply Hold. apply elem_of_union. left. exact Hy.
    + unfold printed in *. cbn [console map rev] in *. rewrite Hsaid, <- app_assoc.
      reflexivity.
Qed.

(** X10.  When, in the run at hand, the [mkdir]s of the first directories
    of the list come through and the next one fails, the structure builder
    throws that error: the directories before it have been made and stay,
    one line has been printed for each of them, and the directories after
    it are not tried. *)
Theorem structure_builder_stops_at_first_failure (h : host) (w : World)
    (made : list string) (d : string) (later : list string) (f : FileSystem) (e : string) :
  directories (projectConfig w) = made ++ d :: later ->
  made_in h made (fs w) = Some f ->
  fs_fault h f (Mkdir d) = Some e ->
  exists w',
    createProjectStructure h w = (Throw e, w')
    /\ fs w' = f
    /\ (forall x, In x made -> x ∈ dirs (fs w'))
    /\ printed ([Out EmptyString; Out "📁 Creating project structure..."]
                  ++ map created_line made) w w'.
Proof.
  intros Hdirs Hmade Hd.
  assert (createProjectStructure h w
          = for_of (directories (projectConfig w))
              (fun dir => mkdir h dir ;; console_log ("  ✅ Created: " +:+ dir +:+ "/"))%js
              (with_console
                 (Out "📁 Creating project structure..." :: Out EmptyString :: console w) w))
    as -> by reflexivity.
  rewrite Hdirs.
  match goal with
  | |- context [for_of _ _ ?w1] =>
      destruct (for_of_mkdir_stops h made d later e f w1 Hmade Hd)
        as (w' & Hrun & Hfs & Hin & _ & Hsaid)
  end.
  exists w'. split; [exact Hrun|]. split; [exact Hfs|]. split; [exact Hin|].
  unfold printed in *. cbn [console with_console] in Hsaid.
  rewrite Hsaid, rev_app_distr, <- app_assoc. reflexivity.
Qed.

(** A file called [logs] stands where the directory is to be made. *)
Lemma structure_builder_stops_at_first_failure_witness :
  exists w',
    createProjectStructure strict_host logs_is_a_file
    = (Throw (file_in_the_way "logs"), w')
    /\ fs w' = before_logs
    /\ (forall x,
          In x ["src"; "src/config"; "src/controllers"; "src/middleware"; "src/models";
                "src/routes"; "src/services"; "src/utils"; "src/validations";
                "tests"; "tests/unit"; "tests/integration"] ->
          x ∈ dirs (fs w'))
    /\ printed ([Out EmptyString; Out "📁 Creating project structure..."]
                  ++ map created_line
                       ["src"; "src/config"; "src/controllers"; "src/middleware";
                        "src/models"; "src/routes"; "src/services"; "src/utils";
                        "src/validations"; "tests"; "tests/unit"; "tests/integration"])
         logs_is_a_file w'.
Proof.
  apply (structure_builder_stops_at_first_failure strict_host logs_is_a_file
           ["src"; "src/config"; "src/controllers"; "src/middleware"; "src/models";
            "src/routes"; "src/services"; "src/utils"; "src/validations";
            "tests"; "tests/unit"; "tests/integration"]
           "logs"
           ["scripts"; "nginx"; ".github"; ".github/workflows"]).
  - reflexivity.
  - vm_compute. exact (eq_refl (Some before_logs)).
  - reflexivity.
Defined.

(** ** The contents written, further *)

Lemma replace_from_absent (p r : list ascii) :
  p <> [] ->
  forall s before,
    ~ occurs p s -> RegExp.replace_from (map RegExp.Chr p) r before 0 s = s.
Proof.
  intros Hp s. induction s as [|c s IH]; intros before Hno; cbn [RegExp.replace_from].
  - rewrite match_here_literal. destruct p; [contradiction|reflexivity].
  - rewrite match_here_literal.
    destruct (is_prefix p (c :: s)) eqn:Hm.
    + exfalso. apply Hno. apply is_prefix_spec in Hm as [t Ht]. exists [], t. exact Ht.
    + f_equal. apply IH. intros (a & b & ->). apply Hno. exists (c :: a), b. reflexivity.
Qed.

Lemma replace_absent (token repl s : string) :
  chars token <> [] -> token_in token s = false ->
  RegExp.replace (RegExp.literal token) repl s = s.
Proof.
  intros Hp Hno. unfold RegExp.replace, RegExp.literal.
  rewrite replace_from_absent; [apply of_chars_chars | exact Hp |].
  intros H. apply occursb_spec in H. unfold token_in in Hno. congruence.
Qed.

(** X11.  A template with neither placeholder token in it is written to
    the environment files as it is, whatever the name and the docker
    username are (a [$] in them included). *)
Theorem env_template_without_tokens (cfg : ProjectConfig) (template : string) :
  token_in app_name_token template = false ->
  token_in docker_username_token template = false ->
  envContent cfg template = template.
Proof.
  intros H1 H2. unfold envContent.
  rewrite (replace_absent app_name_token) by (discriminate || exact H1).
  apply replace_absent; [discriminate | exact H2].
Qed.

Lemma env_template_without_tokens_witness :
  envContent (set_name "x$&" demo) "PORT=3000" = "PORT=3000".
Proof.
  apply (env_template_without_tokens (set_name "x$&" demo) "PORT=3000"); reflexivity.
Defined.

Lemma string_length_app (a b : string) :
  String.length (a +:+ b) = String.length a + String.length b.
Proof.
  induction a as [|c a IH]; [reflexivity|].
  change (S (String.length (a +:+ b)) = S (String.length a + String.length b)).
  now rewrite IH.
Qed.

Lemma longer_is_different (a b c : string) :
  String.length c < String.length b -> a +:+ b <> c.
Proof.
  intros Hlen H. apply (f_equal String.length) in H. rewrite string_length_app in H. lia.
Qed.

(** X12.  When [processDockerFiles] returns, [Dockerfile] and the two
    compose files hold what the three templates held when it started, as
    it was, and [.dockerignore] holds the fixed list. *)
Theorem docker_files_are_copies (h : host) (w w' : World) :
  processDockerFiles h w = (Ok tt, w') ->
  exists dockerfile dev prod,
    files (fs w) !! path_join [templateDir h; "docker"; "Dockerfile"] = Some dockerfile
    /\ files (fs w) !! path_join [templateDir h; "docker"; "docker-compose.dev.yml"]
       = Some dev
    /\ files (fs w) !! path_join [templateDir h; "docker"; "docker-compose.prod.yml"]
       = Some prod
    /\ files (fs w') !! "Dockerfile" = Some dockerfile
    /\ files (fs w') !! "docker-compose.dev.yml" = Some dev
    /\ files (fs w') !! "docker-compose.prod.yml" = Some prod
    /\ files (fs w') !! ".dockerignore" = Some dockerignore.
Proof.
  unfold processDockerFiles, bind, copyFile, readFile, writeFile, get_config, console_log.
  cbn [path_join join with_fs with_console fs files dirs projectConfig].
  intros H.
  destruct (fs_fault h (fs w) (CopyFile _ _)); [discriminate H|].
  destruct (files (fs w) !! _) as [dockerfile|] eqn:H1; [|discriminate H].
  cbn [with_fs with_console fs files dirs projectConfig] in H.
  destruct (fs_fault h _ (ReadFile _)); [discriminate H|].
  rewrite lookup_insert_ne in H by (symmetry; apply longer_is_different; vm_compute; lia).
  destruct (files (fs w) !! (templateDir h +:+ "/" +:+ "docker" +:+ "/"
                               +:+ "docker-compose.dev.yml")) as [dev|] eqn:H2;
    [|discriminate H].
  cbn [with_fs with_console fs files dirs projectConfig] in H.
  destruct (fs_fault h _ (WriteFile "docker-compose.dev.yml")); [discriminate H|].
  cbn [with_fs with_console fs files dirs projectConfig] in H.
  destruct (fs_fault h _ (ReadFile _)); [discriminate H|].
  rewrite lookup_insert_ne in H by (symmetry; apply longer_is_different; vm_compute; lia).
  rewrite lookup_insert_ne in H by (symmetry; apply longer_is_different; vm_compute; lia).
  destruct (files (fs w) !! (templateDir h +:+ "/" +:+ "docker" +:+ "/"
                               +:+ "docker-compose.prod.yml")) as [prod|] eqn:H3;
    [|discriminate H].
  cbn [with_fs with_console fs files dirs projectConfig] in H.
  destruct (fs_fault h _ (WriteFile "docker-compose.prod.yml")); [discriminate H|].
  cbn [with_fs with_console fs files dirs projectConfig] in H.
  destruct (fs_fault h _ (WriteFile ".dockerignore")); [discriminate H|].
  injection H as <-.
  exists dockerfile, dev, prod.
  cbn [with_fs with_console fs files dirs projectConfig].
  rewrite !composeContent_verbatim.
  split; [reflexivity|]. split; [reflexivity|]. split; [reflexivity|].
  split; [|split; [|split]].
  - rewrite !lookup_insert_ne by discriminate. apply lookup_insert_eq.
  - rewrite !lookup_insert_ne by discriminate. apply lookup_insert_eq.
  - rewrite !lookup_insert_ne by discriminate. apply lookup_insert_eq.
  - apply lookup_insert_eq.
Qed.

Lemma docker_files_are_copies_witness :
  exists dockerfile dev prod,
    files (fs (sample_world demo [] sample_files))
      !! path_join [templateDir (sample_host EmptyString); "docker"; "Dockerfile"]
    = Some dockerfile
    /\ files (fs (sample_world demo [] sample_files))
         !! path_join [templateDir (sample_host EmptyString); "docker";
                       "docker-compose.dev.yml"]
       = Some dev
    /\ files (fs (sample_world demo [] sample_files))
         !! path_join [templateDir (sample_host EmptyString); "docker";
                       "docker-compose.prod.yml"]
       = Some prod
    /\ files (fs dockerized_world) !! "Dockerfile" = Some dockerfile
    /\ files (fs dockerized_world) !! "docker-compose.dev.yml" = Some dev
    /\ files (fs dockerized_world) !! "docker-compose.prod.yml" = Some prod
    /\ files (fs dockerized_world) !! ".dockerignore" = Some dockerignore.
Proof.
  apply (docker_files_are_copies (sample_host EmptyString)
           (sample_world demo [] sample_files) dockerized_world).
  vm_compute. exact (eq_refl (Ok tt, dockerized_world)).
Defined.

(** ** The last steps, further *)

(** X14.  [showCompletion] returns, changing nothing but the console, and
    what it prints follows the flags: the list of repository secrets
    exactly with the cicd flag, the two database secrets exactly with the
    cicd and database flags together, the Docker start line exactly with
    the docker flag; the last line is always the same. *)
Theorem completion_summary_follows_flags (w : World) :
  exists said,
    showCompletion w = (Ok tt, with_console (rev said ++ console w) w)
    /\ (In (Out "3. Set up GitHub repository secrets:") said
        <-> f_cicd (features (projectConfig w)) = true)
    /\ (In (Out "   - DATABASE_URL") said /\ In (Out "   - TEST_DATABASE_URL") said
        <-> f_cicd (features (projectConfig w)) = true
            /\ f_database (features (projectConfig w)) = true)
    /\ (In (Out "  npm run dev:docker  # With Docker") said
        <-> f_docker (features (projectConfig w)) = true)
    /\ List.last said (Out EmptyString) = Out "Happy coding! 🚀".
Proof.
  exists (summary (projectConfig w)). split; [apply showCompletion_run|].
  destruct w as [[nm de au em du gu db [fd fc fdb fr fm]] i o f r].
  unfold summary, summary_head. cbn [projectConfig features f_cicd f_database f_docker].
  destruct fc, fdb, fd; cbn [app In List.last];
    repeat split; intros; try reflexivity; try discriminate;
    repeat match goal with
           | H : _ /\ _ |- _ => destruct H
           | H : _ \/ _ |- _ => destruct H
           | H : False |- _ => destruct H
           | H : Out _ = Out _ |- _ => discriminate H
           | H : false = true |- _ => discriminate H
           end;
    auto 40.
Qed.

(** X15.  [initializeGit] always returns.  [git add] is run on what
    [git init] left and only when it succeeded, the commit only when both
    did; the file system is left as the last command run left it; the line
    of success is printed when all three succeeded, and otherwise the
    message of the first failure with the hint. *)
Theorem git_steps_stop_at_first_failure (h : host) (w : World) :
  let init := execSync h "git init" (fs w) in
  let add := execSync h "git add ." (snd init) in
  let commit := execSync h git_commit_command (snd add) in
  exists w',
    initializeGit h w = (Ok tt, w')
    /\ projectConfig w' = projectConfig w
    /\ match fst init, fst add, fst commit with
       | Some e, _, _ =>
           fs w' = snd init /\ printed (git_header ++ git_failure e) w w'
       | None, Some e, _ =>
           fs w' = snd add /\ printed (git_header ++ git_failure e) w w'
       | None, None, Some e =>
           fs w' = snd commit /\ printed (git_header ++ git_failure e) w w'
       | None, None, None =>
           fs w' = snd commit
           /\ printed (git_header ++ [Out "  ✅ Git repository initialized"]) w w'
       end.
Proof.
  intros init add commit. subst init add commit.
  eexists. split; [apply initializeGit_run|]. split; [reflexivity|].
  unfold printed, git_commands. cbn [fs console].
  destruct (execSync h "git init" (fs w)) as [[e|] f1]; cbn [fst snd]; [auto|].
  destruct (execSync h "git add ." f1) as [[e|] f2]; cbn [fst snd]; [auto|].
  destruct (execSync h git_commit_command f2) as [[e|] f3]; cbn [fst snd]; auto.
Qed.

Lemma summary_ends (c : ProjectConfig) (before : list output) :
  hd_error (rev (summary c) ++ before) = Some (Out "Happy coding! 🚀").
Proof.
  destruct c as [nm de au em du gu db [fd fc fdb fr fm]].
  unfold summary, summary_head. cbn [features f_cicd f_database f_docker].
  destruct fc, fdb, fd; reflexivity.
Qed.

(** X16.  What a call of [main] comes to is decided by its first three
    steps alone, whatever the pattern of line 380 is: it returns exactly
    when they return, the reader then closed and the last line of the
    summary the last thing printed; [process.exit(1)] is called exactly
    when one of them throws; and it is left waiting exactly when they are,
    for a line that has not come.  The installer, the version-control
    commands and the summary change nothing to that. *)
Theorem main_is_decided_by_preparation (h : host) (p : RegExp.pattern) (w : World) :
  (fst (main h p w) = Returned <-> fst (preparation h p w) = Ok tt)
  /\ (fst (main h p w) = Exited 1 <-> exists e, fst (preparation h p w) = Throw e)
  /\ (fst (main h p w) = Waiting <-> fst (preparation h p w) = Pending)
  /\ (fst (main h p w) = Returned ->
      rl_closed (snd (main h p w)) = true
      /\ hd_error (console (snd (main h p w))) = Some (Out "Happy coding! 🚀")).
Proof.
  unfold main. rewrite initialization_steps. unfold bind.
  destruct (preparation h p w) as [[[]|e|] w1]; cbn [fst].
  - destruct (completion_run h w1) as (w2 & w3 & w4 & _ & _ & Hs & -> & _ & _ & _).
    cbn [fst snd].
    rewrite showCompletion_run in Hs. injection Hs as <-.
    repeat split; intros; try reflexivity; try discriminate.
    + destruct H as [e H]. discriminate H.
    + apply summary_ends.
  - repeat split; intros; try reflexivity; try discriminate; eauto.
  - repeat split; intros; try reflexivity; try discriminate.
    destruct H as [e H]. discriminate H.
Qed.

(** X17.  When [processEnvFiles] throws, nothing has been printed and no
    file but the two environment files has changed.  [.env.example] has
    changed only when writing it got as far as opening it: it holds a
    beginning of the new content.  [.env] has changed only when
    [.env.example] holds the whole of the new content already: the first
    write is not undone when the second fails. *)
Theorem env_files_are_not_rolled_back (h : host) (w w' : World) (e : string) :
  processEnvFiles h w = (Throw e, w') ->
  console w' = console w
  /\ (forall p, p <> ".env.example" -> p <> ".env" ->
                files (fs w') !! p = files (fs w) !! p)
  /\ (files (fs w') !! ".env.example" <> files (fs w) !! ".env.example" ->
      exists template left,
        files (fs w) !! path_join [templateDir h; "config"; ".env.example"]
        = Some template
        /\ files (fs w') !! ".env.example" = Some left
        /\ begins left (envContent (projectConfig w) template))
  /\ (files (fs w') !! ".env" <> files (fs w) !! ".env" ->
      exists template left,
        files (fs w) !! path_join [templateDir h; "config"; ".env.example"]
        = Some template
        /\ files (fs w') !! ".env.example"
           = Some (envContent (projectConfig w) template)
        /\ files (fs w') !! ".env" = Some left
        /\ begins left (envContent (projectConfig w) template)).
Proof.
  unfold processEnvFiles, bind, readFile, writeFile, get_config, console_log.
  intros H.
  destruct (fs_fault h (fs w) (ReadFile _));
    [injection H as _ <-; repeat split; congruence|].
  destruct (files (fs w) !! _) as [template|] eqn:Ht;
    [|injection H as _ <-; repeat split; congruence].
  cbn [with_fs fs files] in H.
  destruct (fs_fault h (fs w) (WriteFile ".env.example")).
  - injection H as _ <-. unfold after_failed_write.
    destruct (written_before_fault h (fs w) ".env.example" _) as [n|];
      cbn [with_fs fs files dirs console];
      [|repeat split; congruence].
    split; [reflexivity|]. split; [|split].
    + intros p H1 H2. apply lookup_insert_ne. congruence.
    + intros _. exists template, (substring 0 n (envContent (projectConfig w) template)).
      split; [reflexivity|]. split; [apply lookup_insert_eq|]. exists n. reflexivity.
    + intros Hne. exfalso. apply Hne. apply lookup_insert_ne. discriminate.
  - cbn [with_fs fs files dirs] in H.
    destruct (fs_fault h _ (WriteFile ".env")); [|discriminate H].
    injection H as _ <-. unfold after_failed_write.
    cbn [with_fs fs files dirs console].
    destruct (written_before_fault h _ ".env" _) as [n|];
      cbn [with_fs fs files dirs console].
    + split; [reflexivity|]. split; [|split].
      * intros p H1 H2. rewrite !lookup_insert_ne by congruence. reflexivity.
      * intros _. exists template, (envContent (projectConfig w) template).
        split; [reflexivity|].
        split; [rewrite lookup_insert_ne by discriminate; apply lookup_insert_eq|].
        apply begins_itself.
      * intros _.
        exists template, (substring 0 n (envContent (projectConfig w) template)).
        split; [reflexivity|].
        split; [rewrite lookup_insert_ne by discriminate; apply lookup_insert_eq|].
        split; [apply lookup_insert_eq|]. exists n. reflexivity.
    + split; [reflexivity|]. split; [|split].
      * intros p H1 H2. rewrite lookup_insert_ne by congruence. reflexivity.
      * intros _. exists template, (envContent (projectConfig w) template).
        split; [reflexivity|]. split; [apply lookup_insert_eq|]. apply begins_itself.
      * intros Hne. exfalso. apply Hne. apply lookup_insert_ne. discriminate.
Qed.

(** The disk is full when [.env] is written: nine characters are in it,
    and [.env.example] is whole. *)
Lemma env_files_are_not_rolled_back_witness :
  let w := sample_world demo [] sample_files in
  (console half_written_world = console w
   /\ (forall p, p <> ".env.example" -> p <> ".env" ->
                 files (fs half_written_world) !! p = files (fs w) !! p)
   /\ (files (fs half_written_world) !! ".env.example" <> files (fs w) !! ".env.example" ->
       exists template left,
         files (fs w)
           !! path_join [templateDir (full_disk_host ".env" 9); "config"; ".env.example"]
         = Some template
         /\ files (fs half_written_world) !! ".env.example" = Some left
         /\ begins left (envContent (projectConfig w) template))
   /\ (files (fs half_written_world) !! ".env" <> files (fs w) !! ".env" ->
       exists template left,
         files (fs w)
           !! path_join [templateDir (full_disk_host ".env" 9); "config"; ".env.example"]
         = Some template
         /\ files (fs half_written_world) !! ".env.example"
            = Some (envContent (projectConfig w) template)
         /\ files (fs half_written_world) !! ".env" = Some left
         /\ begins left (envContent (projectConfig w) template)))
  /\ files (fs half_written_world) !! ".env" = Some "NODE_ENV=".
Proof.
  intros w. split; [|reflexivity].
  apply (env_files_are_not_rolled_back (full_disk_host ".env" 9) w half_written_world
           no_space).
  vm_compute. exact (eq_refl (Throw no_space, half_written_world)).
Defined.
